(** * MyUrls: the short-link lifecycle engine of [main.go]

    A shallow embedding of the POST /short and GET /:shortKey handlers,
    [longToShort], [shortToLong], [renew] and [generate], over a model of
    the Redis commands they issue, followed by the properties of the
    engine that the specification states. *)

From Stdlib Require Import ZArith NArith Ascii String List Lia Bool.
From stdpp Require Import gmap strings list fin_maps.

Local Open Scope string_scope.
Local Open Scope list_scope.
Local Open Scope Z_scope.

(** ** Go's [int] *)

(** [int] is 64 bits wide on the platforms the service is built for;
    arithmetic wraps around in two's complement. *)
Module GoInt.

Definition min_int : Z := - 2 ^ 63.
Definition max_int : Z := 2 ^ 63 - 1.

Definition wrap (z : Z) : Z := (z + 2 ^ 63) mod 2 ^ 64 - 2 ^ 63.

Definition add (a b : Z) : Z := wrap (a + b).
Definition mul (a b : Z) : Z := wrap (a * b).

Definition in_range (z : Z) : bool := (min_int <=? z) && (z <=? max_int).

End GoInt.

(** ** [encoding/base64]: [StdEncoding.DecodeString] *)

(** Go's standard decoder, which the repository calls and does not
    define.  The handler decodes the [longUrl] form field and throws the
    error away, so what matters is which bytes the decoder hands back
    next to an error: every quantum completed before the corrupt
    position. *)
Module Base64.

Definition encodeStd : string :=
  "ABCDEFGHIJKLMNOPQRSTUVWXYZabcdefghijklmnopqrstuvwxyz0123456789+/".

Definition padChar : ascii := "="%char.

Fixpoint index_of (c : ascii) (s : string) (i : N) : option N :=
  match s with
  | EmptyString => None
  | String d s' => if Ascii.eqb c d then Some i else index_of c s' (i + 1)%N
  end.

(** [decodeMap[in]]; [None] stands for the 0xff entries. *)
Definition decodeMap (c : ascii) : option N := index_of c encodeStd 0%N.

Definition is_newline (c : ascii) : bool :=
  Ascii.eqb c "010"%char || Ascii.eqb c "013"%char.

Fixpoint skip_newlines (src : list ascii) : list ascii :=
  match src with
  | c :: rest => if is_newline c then skip_newlines rest else src
  | [] => []
  end.

Definition byte_of (n : N) : ascii := ascii_of_N (N.land n 255).

(** The tail of [decodeQuantum]: [dlen] sextets (the rest of [dbuf] is
    zero) give [dlen - 1] bytes. *)
Definition quantum_bytes (dbuf : list N) : list ascii :=
  let val := N.lor (N.lor (N.shiftl (nth 0 dbuf 0%N) 18)
                          (N.shiftl (nth 1 dbuf 0%N) 12))
                   (N.lor (N.shiftl (nth 2 dbuf 0%N) 6) (nth 3 dbuf 0%N)) in
  firstn (length dbuf - 1)
    [byte_of (N.shiftr val 16); byte_of (N.shiftr val 8); byte_of val].

Inductive CorruptInputError := corrupt_input.

(** [Decode]'s loop over [decodeQuantum], on the unread input [src],
    the sextets [dbuf] of the quantum under way and the bytes [out]
    written so far. *)
Fixpoint decode (src : list ascii) (dbuf : list N) (out : list ascii)
  : list ascii * option CorruptInputError :=
  match src with
  | [] =>
      match dbuf with
      | [] => (out, None)
      | _ :: _ => (out, Some corrupt_input)
      end
  | c :: rest =>
      match decodeMap c with
      | Some v =>
          let dbuf' := dbuf ++ [v] in
          if (length dbuf' =? 4)%nat
          then decode rest [] (out ++ quantum_bytes dbuf')
          else decode rest dbuf' out
      | None =>
          if is_newline c then decode rest dbuf out
          else if negb (Ascii.eqb c padChar) then (out, Some corrupt_input)
          else
            match length dbuf with
            | 0%nat | 1%nat => (out, Some corrupt_input)
            | 2%nat =>
                match skip_newlines rest with
                | [] => (out, Some corrupt_input)
                | c2 :: rest2 =>
                    if negb (Ascii.eqb c2 padChar) then (out, Some corrupt_input)
                    else
                      match skip_newlines rest2 with
                      | [] => (out ++ quantum_bytes dbuf, None)
                      | _ :: _ => (out ++ quantum_bytes dbuf, Some corrupt_input)
                      end
                end
            | _ =>
                match skip_newlines rest with
                | [] => (out ++ quantum_bytes dbuf, None)
                | _ :: _ => (out ++ quantum_bytes dbuf, Some corrupt_input)
                end
            end
      end
  end.

Definition DecodeString (s : string) : string * option CorruptInputError :=
  let '(out, err) := decode (list_ascii_of_string s) [] [] in
  (string_of_list_ascii out, err).

End Base64.

(** ** [strconv.Atoi] *)

(** Go's standard conversion, as the handler uses it: only whether it
    fails matters, and the number it returns. *)

Module Strconv.

Definition digit_of (c : ascii) : option Z :=
  let n := Z.of_N (N_of_ascii c) - 48 in
  if (0 <=? n) && (n <=? 9) then Some n else None.

Fixpoint digits (s : list ascii) (acc : Z) : option Z :=
  match s with
  | [] => Some acc
  | c :: rest =>
      match digit_of c with
      | Some d => digits rest (acc * 10 + d)
      | None => None
      end
  end.

(** An optional sign, then one or more decimal digits; [None] for a
    syntax error and for a value outside [int]. *)
Definition Atoi (s : string) : option Z :=
  match list_ascii_of_string s with
  | [] => None
  | c :: rest =>
      let signed := Ascii.eqb c "-"%char || Ascii.eqb c "+"%char in
      let body := if signed then rest else c :: rest in
      match body with
      | [] => None
      | _ :: _ =>
          match digits body 0 with
          | Some n =>
              let v := if Ascii.eqb c "-"%char then - n else n in
              if GoInt.in_range v then Some v else None
          | None => None
          end
      end
  end.

End Strconv.

(** ** [crypto/md5] and [encoding/hex] *)

(** [md5.Sum] after RFC 1321, on 32-bit words kept in [N]. *)
Module MD5.

Local Open Scope N_scope.

Definition mask32 : N := 0xffffffff.
Definition add32 (a b : N) : N := N.land (a + b) mask32.
Definition not32 (a : N) : N := N.lxor a mask32.
Definition rotl32 (x c : N) : N :=
  N.land (N.lor (N.shiftl x c) (N.shiftr x (32 - c))) mask32.

Definition K : list N :=
  [ 0xd76aa478; 0xe8c7b756; 0x242070db; 0xc1bdceee;
    0xf57c0faf; 0x4787c62a; 0xa8304613; 0xfd469501;
    0x698098d8; 0x8b44f7af; 0xffff5bb1; 0x895cd7be;
    0x6b901122; 0xfd987193; 0xa679438e; 0x49b40821;
    0xf61e2562; 0xc040b340; 0x265e5a51; 0xe9b6c7aa;
    0xd62f105d; 0x02441453; 0xd8a1e681; 0xe7d3fbc8;
    0x21e1cde6; 0xc33707d6; 0xf4d50d87; 0x455a14ed;
    0xa9e3e905; 0xfcefa3f8; 0x676f02d9; 0x8d2a4c8a;
    0xfffa3942; 0x8771f681; 0x6d9d6122; 0xfde5380c;
    0xa4beea44; 0x4bdecfa9; 0xf6bb4b60; 0xbebfbc70;
    0x289b7ec6; 0xeaa127fa; 0xd4ef3085; 0x04881d05;
    0xd9d4d039; 0xe6db99e5; 0x1fa27cf8; 0xc4ac5665;
    0xf4292244; 0x432aff97; 0xab9423a7; 0xfc93a039;
    0x655b59c3; 0x8f0ccc92; 0xffeff47d; 0x85845dd1;
    0x6fa87e4f; 0xfe2ce6e0; 0xa3014314; 0x4e0811a1;
    0xf7537e82; 0xbd3af235; 0x2ad7d2bb; 0xeb86d391 ].

Definition S : list N :=
  [ 7; 12; 17; 22; 7; 12; 17; 22; 7; 12; 17; 22; 7; 12; 17; 22;
    5; 9; 14; 20; 5; 9; 14; 20; 5; 9; 14; 20; 5; 9; 14; 20;
    4; 11; 16; 23; 4; 11; 16; 23; 4; 11; 16; 23; 4; 11; 16; 23;
    6; 10; 15; 21; 6; 10; 15; 21; 6; 10; 15; 21; 6; 10; 15; 21 ].

Record digest := Digest { dA : N; dB : N; dC : N; dD : N }.

Definition init : digest :=
  Digest 0x67452301 0xefcdab89 0x98badcfe 0x10325476.

(** One of the 64 operations on the block [M] of sixteen words. *)
Definition step (M : list N) (st : digest) (i : nat) : digest :=
  let '(Digest a b c d) := st in
  let n := N.of_nat i in
  let '(f, g) :=
    if n <? 16 then (N.lor (N.land b c) (N.land (not32 b) d), n)
    else if n <? 32 then
      (N.lor (N.land d b) (N.land (not32 d) c), (5 * n + 1) mod 16)
    else if n <? 48 then (N.lxor b (N.lxor c d), (3 * n + 5) mod 16)
    else (N.lxor c (N.lor b (not32 d)), (7 * n) mod 16) in
  let f' := add32 (add32 f a) (add32 (nth i K 0) (nth (N.to_nat g) M 0)) in
  Digest d (add32 b (rotl32 f' (nth i S 0))) b c.

Definition block (st : digest) (M : list N) : digest :=
  let '(Digest a b c d) := fold_left (step M) (seq 0 64) st in
  Digest (add32 (dA st) a) (add32 (dB st) b) (add32 (dC st) c) (add32 (dD st) d).

(** Little-endian words of a byte sequence whose length divides by 4. *)
Fixpoint words (bs : list N) : list N :=
  match bs with
  | b0 :: b1 :: b2 :: b3 :: rest =>
      (b0 + N.shiftl b1 8 + N.shiftl b2 16 + N.shiftl b3 24) :: words rest
  | _ => []
  end.

Fixpoint blocks (n : nat) (ws : list N) (st : digest) : digest :=
  match n with
  | O => st
  | Datatypes.S n' => blocks n' (skipn 16 ws) (block st (firstn 16 ws))
  end.

Definition le_bytes (count : nat) (x : N) : list N :=
  map (fun i => N.land (N.shiftr x (8 * N.of_nat i)) 255) (seq 0 count).

(** The message, a 0x80 byte, zeros up to 56 modulo 64, and the bit
    length on eight bytes. *)
Definition pad (bs : list N) : list N :=
  let len := N.of_nat (length bs) in
  let zeros := N.to_nat ((55 + 64 - len mod 64) mod 64) in
  bs ++ [128] ++ repeat 0 zeros ++ le_bytes 8 (N.land (8 * len) 0xffffffffffffffff).

Definition Sum (s : string) : list N :=
  let ws := words (pad (map N_of_ascii (list_ascii_of_string s))) in
  let '(Digest a b c d) := blocks (length ws / 16) ws init in
  le_bytes 4 a ++ le_bytes 4 b ++ le_bytes 4 c ++ le_bytes 4 d.

End MD5.

Module Hex.

Definition hextable : string := "0123456789abcdef".

Definition digit (n : N) : ascii :=
  match String.get (N.to_nat n) hextable with
  | Some c => c
  | None => "0"%char
  end.

Fixpoint EncodeToString (bs : list N) : string :=
  match bs with
  | [] => ""
  | b :: rest =>
      String (digit (N.shiftr b 4))
        (String (digit (N.land b 15)) (EncodeToString rest))
  end.

End Hex.

#[global] Arguments MD5.Sum : simpl never.
#[global] Arguments Hex.EncodeToString : simpl never.

(** ** [math/rand] *)

(** The generator behind [rand.New (rand.NewSource seed)]: a state made
    from a seed, and [Intn], which draws a number below [n] and moves the
    state on.  Its algorithm is not part of the repository; the engine
    relies on the range of [Intn] alone. *)
Class Rand := {
  Source : Type;
  NewSource : Z -> Source;
  Intn : Source -> nat -> nat * Source;
  Intn_lt : forall r n, (0 < n)%nat -> (fst (Intn r n) < n)%nat
}.

(** A linear congruential generator, to run the engine on concrete
    requests. *)
Module Lcg.

Definition next (r : Z) : Z :=
  (r * 6364136223846793005 + 1442695040888963407) mod 2 ^ 64.

Definition draw (r : Z) (n : nat) : nat * Z :=
  (Z.to_nat ((next r / 2 ^ 33) mod Z.of_nat n), next r).

End Lcg.

#[export] Instance lcg_rand : Rand.
Proof.
  refine {| Source := Z; NewSource := fun seed => seed; Intn := Lcg.draw |}.
  intros r n Hn. unfold Lcg.draw. simpl.
  pose proof (Z.mod_pos_bound (Lcg.next r / 2 ^ 33) (Z.of_nat n)). lia.
Defined.

(** ** The Redis store *)

(** Modelled from the spec: the Store Adapter of section 6 ([get], [set],
    [mset], [expire], [ttl], [setnx] on string values), which the
    repository reaches through the redigo client and does not define.
    Where section 6 is silent the Redis command reference decides: SET
    and MSET discard a time to live the key had, EXPIRE with a time that
    is not positive deletes the key, TTL answers -2 for a missing key and
    -1 for a key without expiration.  Time is counted in whole seconds:
    an entry holds the seconds it has left, if it expires at all. *)
Module Redis.

Record entry := Entry { value : string; expiry : option positive }.

Abbreviation db := (gmap string entry).

Definition get (k : string) (d : db) : option string := value <$> d !! k.

Definition set (k v : string) (d : db) : db := <[k := Entry v None]> d.

Fixpoint mset (kvs : list (string * string)) (d : db) : db :=
  match kvs with
  | [] => d
  | (k, v) :: rest => mset rest (set k v d)
  end.

Definition expire (k : string) (seconds : Z) (d : db) : Z * db :=
  match d !! k with
  | None => (0, d)
  | Some e =>
      if seconds <=? 0 then (1, delete k d)
      else (1, <[k := Entry (value e) (Some (Z.to_pos seconds))]> d)
  end.

Definition ttl (k : string) (d : db) : Z :=
  match d !! k with
  | None => -2
  | Some e =>
      match expiry e with
      | None => -1
      | Some secs => Z.pos secs
      end
  end.

Definition setnx (k v : string) (d : db) : Z * db :=
  match d !! k with
  | Some _ => (0, d)
  | None => (1, <[k := Entry v None]> d)
  end.

(** What [seconds] of waiting do to an entry and to the store. *)
Definition age (seconds : Z) (e : entry) : option entry :=
  match expiry e with
  | None => Some e
  | Some secs =>
      if Z.pos secs <=? seconds then None
      else Some (Entry (value e) (Some (Z.to_pos (Z.pos secs - seconds))))
  end.

Definition elapse (seconds : Z) (d : db) : db := omap (age seconds) d.

(** redigo's [redis.String] with its error dropped: a nil reply reads
    as the empty string. *)
Definition reply_string (r : option string) : string := default "" r.

End Redis.

(** ** Constants of [main.go] *)

Definition letterBytes : string :=
  "0123456789abcdefghijklmnopqrstuvwxyzABCDEFGHIJKLMNOPQRSTUVWXYZ".
Definition defaultShortUrlLen : Z := 6.
Definition minShortUrlLen : Z := 1.
Definition maxShortUrlLen : Z := 20.
Definition defaultLockPrefix : string := "myurls:lock:".
Definition defaultMd5Prefix : string := "myurls:md5:".
Definition defaultRenewalDay : Z := 1.
Definition secondsPerDay : Z := 24 * 3600.

(** ** The world the handlers run in *)

(** The store and the wall clock: [clock w i] is what the [i]-th reading
    of [time.Now().UnixNano()] returns, [ticks w] counts the readings
    made so far.  Every Redis command succeeds. *)
Record World := mkWorld {
  db : gmap string Redis.entry;
  clock : nat -> Z;
  ticks : nat
}.

Definition with_db (d : gmap string Redis.entry) (w : World) : World :=
  {| db := d; clock := clock w; ticks := ticks w |}.

Definition M (A : Type) : Type := World -> A * World.

Definition ret {A} (a : A) : M A := fun w => (a, w).

Definition bind {A B} (c : M A) (k : A -> M B) : M B :=
  fun w => k (fst (c w)) (snd (c w)).

Notation "x <- c ;; k" := (bind c (fun x => k))
  (at level 100, c at next level, right associativity).
Notation "c ;;; k" := (bind c (fun _ => k))
  (at level 100, right associativity).

(** [redisClient.Do] for each command. *)
Definition Do_get (k : string) : M string :=
  fun w => (Redis.reply_string (Redis.get k (db w)), w).

Definition Do_set (k v : string) : M unit :=
  fun w => (tt, with_db (Redis.set k v (db w)) w).

Definition Do_mset (kvs : list (string * string)) : M unit :=
  fun w => (tt, with_db (Redis.mset kvs (db w)) w).

Definition Do_expire (k : string) (seconds : Z) : M Z :=
  fun w => (fst (Redis.expire k seconds (db w)),
            with_db (snd (Redis.expire k seconds (db w))) w).

Definition Do_ttl (k : string) : M Z :=
  fun w => (Redis.ttl k (db w), w).

Definition Do_setnx (k v : string) : M Z :=
  fun w => (fst (Redis.setnx k v (db w)),
            with_db (snd (Redis.setnx k v (db w))) w).

(** The clock after [n] more readings. *)
Definition advance (n : nat) (w : World) : World :=
  {| db := db w; clock := clock w; ticks := (ticks w + n)%nat |}.

Definition UnixNano : M Z :=
  fun w => (clock w (ticks w), advance 1 w).

(** A GET on [k] comes back empty: no key, or an empty value. *)
Abbreviation unmapped w k :=
  (Redis.reply_string (Redis.get k (db w)) = "") (only parsing).

(** Seconds go by between two requests. *)
Definition wait (seconds : Z) (w : World) : World :=
  with_db (Redis.elapse seconds (db w)) w.

(** ** The engine *)

Section Engine.

Context `{Rand}.

(** [letterBytes[i]]; [Intn] keeps [i] below [len(letterBytes)], so
    the default is never read (Go would panic there). *)
Definition letter (i : nat) : ascii :=
  match String.get i letterBytes with
  | Some c => c
  | None => "000"%char
  end.

(** The loop [for i := range b] of [generate], on the [bits] bytes
    still to fill. *)
Fixpoint fill (bits : nat) (r : Source) : list ascii :=
  match bits with
  | O => []
  | S bits' =>
      let d := Intn r (String.length letterBytes) in
      letter (fst d) :: fill bits' (snd d)
  end.

(** [generate]; [make] panics for a negative [bits], and every call
    passes a length from 1 to 20. *)
Definition generate (bits : nat) : M string :=
  seed <- UnixNano ;;
  ret (string_of_list_ascii (fill bits (NewSource seed))).

(** The key that the call of [generate] after [i] further clock
    readings returns. *)
Definition candidate (w : World) (i bits : nat) : string :=
  string_of_list_ascii (fill bits (NewSource (clock w (ticks w + i)%nat))).

Definition md5_key (longUrl : string) : string :=
  defaultMd5Prefix +:+ Hex.EncodeToString (MD5.Sum longUrl).

(** What the three commands that store a new short key make of the
    store: MSET of both records, then EXPIRE on each. *)
Definition stored (k url : string) (ttl : Z) (d : gmap string Redis.entry)
  : gmap string Redis.entry :=
  snd (Redis.expire (md5_key url) secondsPerDay
         (snd (Redis.expire k ttl
                 (Redis.mset [(k, url); (md5_key url, k)] d)))).

(** The loop [for i := 0; i < 3; i++] of [longToShort], with [n]
    iterations left and [shortKey] as the variable stands. *)
Fixpoint retry (n : nat) (shortUrlLen : nat) (shortKey : string) : M string :=
  match n with
  | O => ret shortKey
  | S n' =>
      shortKey <- generate shortUrlLen ;;
      existsLongUrl <- Do_get shortKey ;;
      if decide (existsLongUrl = "") then ret shortKey
      else retry n' shortUrlLen shortKey
  end.

Definition longToShort (longUrl : string) (ttl : Z) (shortUrlLen : nat)
  : M string :=
  existsKey <- Do_get (md5_key longUrl) ;;
  if decide (existsKey <> "") then
    Do_expire existsKey ttl ;;;
    ret existsKey
  else
    shortKey <- retry 3 shortUrlLen "" ;;
    if decide (shortKey <> "") then
      Do_mset [(shortKey, longUrl); (md5_key longUrl, shortKey)] ;;;
      Do_expire shortKey ttl ;;;
      Do_expire (md5_key longUrl) secondsPerDay ;;;
      ret shortKey
    else ret shortKey.

Definition renew (shortKey : string) : M unit :=
  let lockKey := defaultLockPrefix +:+ shortKey in
  lock <- Do_setnx lockKey "1" ;;
  if decide (lock = 1) then
    Do_expire lockKey (defaultRenewalDay * secondsPerDay) ;;;
    ttl <- Do_ttl shortKey ;;
    if decide (ttl <> -1) then
      Do_expire shortKey (GoInt.add ttl (defaultRenewalDay * secondsPerDay)) ;;;
      ret tt
    else ret tt
  else ret tt.

Definition shortToLong (shortKey : string) : M string :=
  longUrl <- Do_get shortKey ;;
  (if decide (longUrl <> "") then renew shortKey else ret tt) ;;;
  ret longUrl.

(** *** The handlers of [main] *)

(** The flags [-domain], [-ttl] (days) and [-https]. *)
Record Config := mkConfig {
  flag_domain : string;
  flag_ttl : Z;
  flag_https : Z
}.

(** The form fields [longUrl], [shortKey] and [shortUrlLen]. *)
Record Form := mkForm {
  form_longUrl : string;
  form_shortKey : string;
  form_shortUrlLen : string
}.

Record Response := mkResponse {
  Code : Z;
  Message : string;
  LongUrl : string;
  ShortUrl : string
}.

Definition msg_longUrl_empty : string := "longUrl为空".
Definition msg_len_not_number : string := "shortUrlLen必须为数字".
(** [fmt.Sprintf] of the range message with 1 and 20. *)
Definition msg_len_range : string := "shortUrlLen范围为1-20".
Definition msg_key_exists : string := "短链接已存在，请更换key".

(** The [shortUrlLen] block of the handler: the length to use, or the
    message of the refusal. *)
Definition read_shortUrlLen (shortUrlLenStr : string) : string + Z :=
  if decide (shortUrlLenStr <> "") then
    match Strconv.Atoi shortUrlLenStr with
    | None => inl msg_len_not_number
    | Some n =>
        if (minShortUrlLen <=? n) && (n <=? maxShortUrlLen) then inr n
        else inl msg_len_range
    end
  else inr defaultShortUrlLen.

Definition short_url (cfg : Config) (shortKey : string) : string :=
  let protocol := if decide (flag_https cfg <> 0) then "https://" else "http://" in
  protocol +:+ flag_domain cfg +:+ "/" +:+ shortKey.

(** POST /short *)
Definition post_short (cfg : Config) (form : Form) : M Response :=
  if decide (form_longUrl form = "") then
    ret (mkResponse 0 msg_longUrl_empty "" "")
  else
    match read_shortUrlLen (form_shortUrlLen form) with
    | inl msg => ret (mkResponse 0 msg "" "")
    | inr shortUrlLen =>
        let longUrl := fst (Base64.DecodeString (form_longUrl form)) in
        if decide (form_shortKey form <> "") then
          existing <- Do_get (form_shortKey form) ;;
          if decide (existing <> "" /\ existing <> longUrl) then
            ret (mkResponse 0 msg_key_exists longUrl "")
          else
            Do_set (form_shortKey form) longUrl ;;;
            ret (mkResponse 1 "" longUrl (short_url cfg (form_shortKey form)))
        else
          shortKey <- longToShort longUrl
                        (GoInt.mul (flag_ttl cfg) secondsPerDay)
                        (Z.to_nat shortUrlLen) ;;
          ret (mkResponse 1 "" longUrl (short_url cfg shortKey))
    end.

Inductive Reply :=
| NotFound
| MovedPermanently (location : string).

(** GET /:shortKey *)
Definition get_short (shortKey : string) : M Reply :=
  longUrl <- shortToLong shortKey ;;
  if decide (longUrl = "") then ret NotFound
  else ret (MovedPermanently longUrl).

Definition total (delays : list Z) : Z := fold_right Z.add 0 delays.

(** Further resolutions of [shortKey], each after a wait of so many
    seconds. *)
Definition resolve_again (shortKey : string) (delays : list Z) (w : World)
  : World :=
  fold_left (fun w d => snd (shortToLong shortKey (wait d w))) delays w.

End Engine.

(** ** The page [index.html] *)

(** The part of [doShort] that decides what is posted.  Strings are
    byte strings, the only ones [btoa] accepts. *)
Module Page.

(** The browser's [btoa]: base64 with padding, three bytes to four
    letters of [encodeStd]. *)
Definition encode_char (n : N) : ascii :=
  match String.get (N.to_nat n) Base64.encodeStd with
  | Some c => c
  | None => Base64.padChar
  end.

Definition sextet_of (val shift : N) : N := N.land (N.shiftr val shift) 63.

Definition sextet (val shift : N) : ascii := encode_char (sextet_of val shift).

Definition group (b0 b1 b2 : ascii) : N :=
  N.lor (N.lor (N.shiftl (N_of_ascii b0) 16) (N.shiftl (N_of_ascii b1) 8))
        (N_of_ascii b2).

Fixpoint btoa_bytes (bs : list ascii) : list ascii :=
  match bs with
  | b0 :: b1 :: b2 :: rest =>
      let val := group b0 b1 b2 in
      sextet val 18 :: sextet val 12 :: sextet val 6 :: sextet val 0
        :: btoa_bytes rest
  | [b0; b1] =>
      let val := group b0 b1 zero in
      [sextet val 18; sextet val 12; sextet val 6; Base64.padChar]
  | [b0] =>
      let val := group b0 zero zero in
      [sextet val 18; sextet val 12; Base64.padChar; Base64.padChar]
  | [] => []
  end.

Definition btoa (s : string) : string :=
  string_of_list_ascii (btoa_bytes (list_ascii_of_string s)).

Fixpoint starts_with (p l : list ascii) : bool :=
  match p, l with
  | [], _ => true
  | a :: p', b :: l' => Ascii.eqb a b && starts_with p' l'
  | _ :: _, [] => false
  end.

(** [l.indexOf(needle) >= 0] *)
Fixpoint occurs (needle l : list ascii) : bool :=
  match l with
  | [] => starts_with needle []
  | _ :: l' => starts_with needle l || occurs needle l'
  end.

Fixpoint skip_s (l : list ascii) : list ascii :=
  match l with
  | c :: rest => if Ascii.eqb c "s"%char then skip_s rest else l
  | [] => []
  end.

(** The regular expression of [doShort] at the head of [l]: [http], a
    starred group of [s], [://], and a starred class.  In the string
    literal the backslash before [s] escapes nothing, so the class is
    anything but [s]; its star matches the empty string.  What has to
    be there is [http], any number of [s], and [://]. *)
Definition match_at (l : list ascii) : bool :=
  starts_with (list_ascii_of_string "http") l &&
  starts_with (list_ascii_of_string "://") (skip_s (skipn 4 l)).

(** [re.exec(s) !== null]: the expression matches somewhere. *)
Fixpoint exec (l : list ascii) : bool :=
  match l with
  | [] => false
  | _ :: l' => match_at l || exec l'
  end.

(** [doShort] with the fields [longUrl] and [shortUrl] of the page:
    nothing is posted when the expression does not match; else the form
    carries [btoa(longUrl)] and, as key, the short-URL box unless it
    contains [http].  No [shortUrlLen] is sent. *)
Definition doShort (longUrl shortUrl : string) : option Form :=
  if exec (list_ascii_of_string longUrl) then
    Some {| form_longUrl := btoa longUrl;
            form_shortKey :=
              if occurs (list_ascii_of_string "http") (list_ascii_of_string shortUrl)
              then "" else shortUrl;
            form_shortUrlLen := "" |}
  else None.

(** The short-URL box after the answer [res]. *)
Definition received (shortUrl : string) (res : Response) : string :=
  if decide (Code res = 1 /\ ShortUrl res <> "") then ShortUrl res
  else shortUrl.

End Page.

(** ** The short key of the data model *)

(** Section 3 of the specification: a short key is a string over the
    fixed alphabet, of length 1 to 20.  The code has no such test; the
    predicate states what "malformed" means. *)
Definition spec_well_formed_key (k : string) : bool :=
  (1 <=? String.length k)%nat && (String.length k <=? 20)%nat &&
  forallb (fun c => existsb (Ascii.eqb c) (list_ascii_of_string letterBytes))
    (list_ascii_of_string k).

(** ** Sample worlds *)

Definition epoch : Z := 1700000000000000000.

(** An empty store under a clock that moves on by a nanosecond from one
    reading to the next. *)
Definition fresh : World :=
  {| db := ∅; clock := fun i => epoch + Z.of_nat i; ticks := 0 |}.

(** An empty store under a clock too coarse to tell the readings of one
    request apart. *)
Definition fresh_coarse : World :=
  {| db := ∅; clock := fun _ => epoch; ticks := 0 |}.

Definition sample_config : Config :=
  {| flag_domain := "s.example"; flag_ttl := 180; flag_https := 1 |}.

(** A first creation for http://x, kept for ten days, and the world a
    hundred seconds later. *)
Definition issued : string * World :=
  @longToShort lcg_rand "http://x" 864000 6 fresh.

Definition aged : World := wait 100 (snd issued).

(** The same creation kept for ten seconds only, and the world eleven
    seconds later: the record has gone, its index entry has not. *)
Definition brief : string * World :=
  @longToShort lcg_rand "http://x" 10 6 fresh.

Definition lapsed : World := wait 11 (snd brief).

(** The world after a request that names the dedup index entry of
    http://x as its explicit key and "nowhere" as its long URL. *)
Definition planted : World :=
  snd (@post_short lcg_rand sample_config
         {| form_longUrl := "bm93aGVyZQ==";
            form_shortKey := "myurls:md5:94831d84bdbc4feeb2ce9108660eada6";
            form_shortUrlLen := "" |} fresh).

(** The world after a creation under the coarse clock: the next
    creation draws the key that is now taken, three times over. *)
Definition crowded : World :=
  snd (@longToShort lcg_rand "http://x" 864000 6 fresh_coarse).

(** The form the page sends for http://x, without and with a key. *)
Definition form_x : Form :=
  {| form_longUrl := "aHR0cDovL3g="; form_shortKey := "";
     form_shortUrlLen := "" |}.

Definition form_x_as (key : string) : Form :=
  {| form_longUrl := "aHR0cDovL3g="; form_shortKey := key;
     form_shortUrlLen := "" |}.

(** * Properties *)

Example decode_http_x :
  Base64.DecodeString "aHR0cDovL3g=" = ("http://x", None).
Proof. reflexivity. Qed.

Example decode_garbage :
  Base64.DecodeString "!!!!" = ("", Some Base64.corrupt_input).
Proof. reflexivity. Qed.

Example decode_partial :
  Base64.DecodeString "aHR0cDov*3g=" = ("http:/", Some Base64.corrupt_input).
Proof. reflexivity. Qed.

Example atoi_samples :
  Strconv.Atoi "6" = Some 6 /\ Strconv.Atoi "-3" = Some (-3) /\
  Strconv.Atoi "2x" = None /\ Strconv.Atoi "" = None /\ Strconv.Atoi "+" = None /\
  Strconv.Atoi "9223372036854775808" = None.
Proof. repeat split; reflexivity. Qed.

Example md5_vectors :
  Hex.EncodeToString (MD5.Sum "") = "d41d8cd98f00b204e9800998ecf8427e" /\
  Hex.EncodeToString (MD5.Sum "abc") = "900150983cd24fb0d6963f7d28e17f72" /\
  Hex.EncodeToString (MD5.Sum "http://x") = "94831d84bdbc4feeb2ce9108660eada6" /\
  Hex.EncodeToString
    (MD5.Sum "aaaaaaaaaaaaaaaaaaaaaaaaaaaaaaaaaaaaaaaaaaaaaaaaaaaaaaaaaaaaaaaaaaaaaa")
  = "0f5c6c4e740bfcc08c3c26ccb2673d46".
Proof. repeat split; vm_compute; reflexivity. Qed.

(** ** Strings *)

Lemma length_append (a b : string) :
  String.length (a +:+ b) = (String.length a + String.length b)%nat.
Proof. induction a as [|c a IH]; simpl; [reflexivity | now rewrite IH]. Qed.

Lemma length_string_of_list (l : list ascii) :
  String.length (string_of_list_ascii l) = length l.
Proof. induction l as [|c l IH]; simpl; [reflexivity | now rewrite IH]. Qed.

Lemma lock_key_fresh (shortKey : string) :
  defaultLockPrefix +:+ shortKey <> shortKey.
Proof.
  intros E. apply (f_equal String.length) in E.
  rewrite length_append in E. simpl in E. lia.
Qed.

(** ** The store *)

Section StoreFacts.

Implicit Types (d : gmap string Redis.entry) (k : string) (e : Redis.entry).

Lemma reply_get d k e :
  d !! k = Some e -> Redis.reply_string (Redis.get k d) = Redis.value e.
Proof. intros E. unfold Redis.get. now rewrite E. Qed.

Lemma reply_get_missing d k :
  d !! k = None -> Redis.reply_string (Redis.get k d) = "".
Proof. intros E. unfold Redis.get. now rewrite E. Qed.

Lemma reply_nonempty d k :
  Redis.reply_string (Redis.get k d) <> "" ->
  exists e, d !! k = Some e /\ Redis.value e = Redis.reply_string (Redis.get k d).
Proof.
  unfold Redis.get. destruct (d !! k) as [e|]; simpl; [eauto | congruence].
Qed.

Lemma expire_missing d k secs :
  d !! k = None -> Redis.expire k secs d = (0, d).
Proof. intros E. unfold Redis.expire. now rewrite E. Qed.

Lemma expire_positive d k secs e :
  d !! k = Some e -> 0 < secs ->
  Redis.expire k secs d =
    (1, <[k := Redis.Entry (Redis.value e) (Some (Z.to_pos secs))]> d).
Proof.
  intros E Hs. unfold Redis.expire. rewrite E.
  destruct (Z.leb_spec secs 0); [lia | reflexivity].
Qed.

Lemma expire_not_positive d k secs e :
  d !! k = Some e -> secs <= 0 -> Redis.expire k secs d = (1, delete k d).
Proof.
  intros E Hs. unfold Redis.expire. rewrite E.
  destruct (Z.leb_spec secs 0); [reflexivity | lia].
Qed.

Lemma expire_other d k k' secs :
  k <> k' -> snd (Redis.expire k secs d) !! k' = d !! k'.
Proof.
  intros Hne. unfold Redis.expire.
  destruct (d !! k) as [e|]; [|reflexivity].
  destruct (secs <=? 0); simpl.
  - now apply lookup_delete_ne.
  - now apply lookup_insert_ne.
Qed.

(** EXPIRE leaves the value of the key alone, if the key survives. *)
Lemma expire_value d k k' secs e' :
  snd (Redis.expire k secs d) !! k' = Some e' ->
  exists e, d !! k' = Some e /\ Redis.value e = Redis.value e'.
Proof.
  destruct (decide (k = k')) as [<-|Hne].
  - unfold Redis.expire. destruct (d !! k) as [e|] eqn:E; simpl.
    + destruct (secs <=? 0); simpl.
      * rewrite lookup_delete_eq. discriminate.
      * rewrite lookup_insert_eq. intros [= <-]. eauto.
    + rewrite E. discriminate.
  - rewrite expire_other by assumption. eauto.
Qed.

Lemma elapse_lookup d k secs :
  Redis.elapse secs d !! k = d !! k ≫= Redis.age secs.
Proof. apply lookup_omap. Qed.

Lemma age_value secs e e' :
  Redis.age secs e = Some e' -> Redis.value e' = Redis.value e.
Proof.
  unfold Redis.age. destruct (Redis.expiry e) as [t|].
  - destruct (Z.pos t <=? secs); [discriminate | now intros [= <-]].
  - now intros [= <-].
Qed.

(** Waiting loses keys and never changes a value. *)
Lemma elapse_reply d k secs :
  Redis.reply_string (Redis.get k (Redis.elapse secs d)) <> "" ->
  Redis.reply_string (Redis.get k (Redis.elapse secs d))
  = Redis.reply_string (Redis.get k d).
Proof.
  unfold Redis.get. rewrite elapse_lookup.
  destruct (d !! k) as [e|]; simpl; [|congruence].
  destruct (Redis.age secs e) as [e'|] eqn:E; simpl; [|congruence].
  intros _. now apply age_value in E.
Qed.

Lemma elapse_ttl d k secs e t :
  d !! k = Some e -> Redis.expiry e = Some t -> secs < Z.pos t ->
  Redis.elapse secs d !! k
  = Some (Redis.Entry (Redis.value e) (Some (Z.to_pos (Z.pos t - secs)))).
Proof.
  intros E Ht Hs. rewrite elapse_lookup, E. simpl.
  unfold Redis.age. rewrite Ht.
  destruct (Z.leb_spec (Z.pos t) secs); [lia | reflexivity].
Qed.

Lemma elapse_persistent d k secs e :
  d !! k = Some e -> Redis.expiry e = None -> Redis.elapse secs d !! k = Some e.
Proof.
  intros E Ht. rewrite elapse_lookup, E. simpl.
  unfold Redis.age. now rewrite Ht.
Qed.

End StoreFacts.

(** ** The generator and the creation path *)

Section EngineFacts.

Context `{Rand}.

Lemma fill_length bits r : length (fill bits r) = bits.
Proof.
  revert r. induction bits as [|bits IH]; intros r; simpl;
    [reflexivity | now rewrite IH].
Qed.

Lemma candidate_length w i bits : String.length (candidate w i bits) = bits.
Proof. unfold candidate. now rewrite length_string_of_list, fill_length. Qed.

Lemma candidate_nonempty w i bits : (1 <= bits)%nat -> candidate w i bits <> "".
Proof.
  intros Hb E. apply (f_equal String.length) in E.
  rewrite candidate_length in E. simpl in E. lia.
Qed.

Lemma letter_alphabet i :
  (i < String.length letterBytes)%nat ->
  String.get i letterBytes = Some (letter i).
Proof.
  intros Hi. unfold letter.
  destruct (String.get i letterBytes) as [c|] eqn:E; [reflexivity|].
  exfalso. revert Hi E. unfold letterBytes.
  do 62 (destruct i as [|i]; [discriminate|]). simpl. lia.
Qed.

(** Every byte of a generated key is read from [letterBytes]. *)
Lemma fill_alphabet bits r :
  Forall (fun c => exists i, String.get i letterBytes = Some c) (fill bits r).
Proof.
  revert r. induction bits as [|bits IH]; intros r; simpl; constructor.
  - eexists. apply letter_alphabet. apply Intn_lt. simpl. lia.
  - apply IH.
Qed.

Lemma letter_not_colon i : letter i <> ":"%char.
Proof.
  unfold letter, letterBytes.
  do 62 (destruct i as [|i]; [discriminate|]). discriminate.
Qed.

Lemma fill_no_colon bits r : ~ In ":"%char (fill bits r).
Proof.
  revert r. induction bits as [|bits IH]; intros r; simpl; [tauto|].
  intros [E|E]; [now apply letter_not_colon in E | now apply IH in E].
Qed.

Lemma md5_key_colon url : In ":"%char (list_ascii_of_string (md5_key url)).
Proof.
  unfold md5_key, defaultMd5Prefix.
  generalize (Hex.EncodeToString (MD5.Sum url)). intros h. simpl. tauto.
Qed.

(** A generated key never falls in the name space of the dedup index. *)
Lemma candidate_not_md5_key w i bits url : candidate w i bits <> md5_key url.
Proof.
  intros E. pose proof (md5_key_colon url) as Hc. rewrite <- E in Hc.
  unfold candidate in Hc. rewrite list_ascii_of_string_of_list_ascii in Hc.
  now apply fill_no_colon in Hc.
Qed.

Lemma generate_eq bits w : generate bits w = (candidate w 0 bits, advance 1 w).
Proof.
  unfold generate, bind, ret, UnixNano, candidate. simpl.
  now rewrite Nat.add_0_r.
Qed.

Lemma advance_advance n m w : advance n (advance m w) = advance (m + n) w.
Proof. unfold advance. simpl. f_equal. lia. Qed.

Lemma candidate_advance n w i bits :
  candidate (advance n w) i bits = candidate w (n + i) bits.
Proof. unfold candidate, advance. simpl. do 4 f_equal. lia. Qed.

Lemma retry_step n len k0 w :
  retry (S n) len k0 w =
    if decide (unmapped w (candidate w 0 len))
    then (candidate w 0 len, advance 1 w)
    else retry n len (candidate w 0 len) (advance 1 w).
Proof.
  simpl. unfold bind at 1. rewrite generate_eq. simpl.
  unfold bind, Do_get. simpl.
  destruct (decide _); reflexivity.
Qed.

(** The three iterations of the loop, read off the clock. *)
Lemma retry_3 len w :
  retry 3 len "" w =
    if decide (unmapped w (candidate w 0 len))
    then (candidate w 0 len, advance 1 w)
    else if decide (unmapped w (candidate w 1 len))
    then (candidate w 1 len, advance 2 w)
    else (candidate w 2 len, advance 3 w).
Proof.
  rewrite retry_step. destruct (decide _) as [|_]; [reflexivity|].
  rewrite retry_step, candidate_advance, advance_advance. cbn [db advance Nat.add].
  destruct (decide _) as [|_]; [reflexivity|].
  rewrite retry_step, candidate_advance, advance_advance. cbn [db advance Nat.add].
  destruct (decide _); reflexivity.
Qed.

Lemma retry_3_world len w :
  db (snd (retry 3 len "" w)) = db w /\
  clock (snd (retry 3 len "" w)) = clock w /\
  (ticks w < ticks (snd (retry 3 len "" w)) <= ticks w + 3)%nat.
Proof.
  rewrite retry_3. repeat destruct (decide _); simpl; repeat split; lia.
Qed.

Lemma retry_3_candidate len w :
  exists i, (i < 3)%nat /\ fst (retry 3 len "" w) = candidate w i len.
Proof.
  rewrite retry_3. repeat destruct (decide _); simpl;
    [exists 0%nat | exists 1%nat | exists 2%nat]; split; (lia || reflexivity).
Qed.

Lemma longToShort_hit url ttl len w :
  ~ unmapped w (md5_key url) ->
  longToShort url ttl len w =
    (Redis.reply_string (Redis.get (md5_key url) (db w)),
     with_db (snd (Redis.expire
                     (Redis.reply_string (Redis.get (md5_key url) (db w)))
                     ttl (db w))) w).
Proof.
  intros Hhit. unfold longToShort, bind, Do_get. simpl.
  destruct (decide _) as [_|Hn]; [reflexivity|].
  exfalso. apply Hhit.
  destruct (decide (Redis.reply_string (Redis.get (md5_key url) (db w)) = ""));
    [assumption | contradiction].
Qed.

Lemma longToShort_miss url ttl len w :
  unmapped w (md5_key url) ->
  longToShort url ttl len w =
    let r := retry 3 len "" w in
    if decide (fst r <> "")
    then (fst r, with_db (stored (fst r) url ttl (db (snd r))) (snd r))
    else r.
Proof.
  intros Hmiss. unfold longToShort, bind at 1, Do_get. cbn [fst snd].
  destruct (decide _) as [Hn|_]; [contradiction|].
  unfold bind at 1. cbv zeta.
  destruct (decide _); [reflexivity|].
  unfold ret. now destruct (retry 3 len "" w).
Qed.

Lemma longToShort_miss_parts url ttl len w :
  unmapped w (md5_key url) ->
  let r := longToShort url ttl len w in
  let g := retry 3 len "" w in
  fst r = fst g /\ ticks (snd r) = ticks (snd g) /\
  (fst g <> "" -> db (snd r) = stored (fst g) url ttl (db w)).
Proof.
  intros Hmiss. rewrite longToShort_miss by assumption. cbv zeta.
  destruct (retry_3_world len w) as (Hdb & _).
  destruct (decide _); cbn [fst snd ticks db with_db]; rewrite ?Hdb;
    repeat split; intros; (reflexivity || contradiction).
Qed.

Lemma stored_short k url ttl d :
  k <> md5_key url -> 0 < ttl ->
  stored k url ttl d !! k = Some (Redis.Entry url (Some (Z.to_pos ttl))).
Proof.
  intros Hne Httl. unfold stored. rewrite expire_other by congruence.
  rewrite (expire_positive _ k ttl (Redis.Entry url None)); [|simpl|assumption].
  - simpl. apply lookup_insert_eq.
  - unfold Redis.set. rewrite lookup_insert_ne by congruence.
    apply lookup_insert_eq.
Qed.

Lemma stored_short_gone k url ttl d :
  k <> md5_key url -> ttl <= 0 -> stored k url ttl d !! k = None.
Proof.
  intros Hne Httl. unfold stored. rewrite expire_other by congruence.
  rewrite (expire_not_positive _ k ttl (Redis.Entry url None)); [|simpl|assumption].
  - simpl. apply lookup_delete_eq.
  - unfold Redis.set. rewrite lookup_insert_ne by congruence.
    apply lookup_insert_eq.
Qed.

Lemma stored_index k url ttl d :
  k <> md5_key url ->
  stored k url ttl d !! md5_key url
  = Some (Redis.Entry k (Some (Z.to_pos secondsPerDay))).
Proof.
  intros Hne. unfold stored.
  rewrite (expire_positive _ (md5_key url) secondsPerDay (Redis.Entry k None));
    [| |reflexivity].
  - simpl. apply lookup_insert_eq.
  - rewrite expire_other by congruence. simpl. unfold Redis.set.
    apply lookup_insert_eq.
Qed.

Lemma stored_other k url ttl d j :
  j <> k -> j <> md5_key url -> stored k url ttl d !! j = d !! j.
Proof.
  intros Hk Hm. unfold stored. rewrite !expire_other by congruence.
  simpl. unfold Redis.set. now rewrite !lookup_insert_ne by congruence.
Qed.

(** GET after a creation that missed the index: the long URL while the
    record lives, nothing when a time to live that is not positive
    deleted it at once. *)
Lemma stored_reply k url ttl d :
  k <> md5_key url ->
  Redis.reply_string (Redis.get k (stored k url ttl d))
  = if decide (0 < ttl) then url else "".
Proof.
  intros Hne. destruct (decide (0 < ttl)).
  - erewrite reply_get by (now apply stored_short). reflexivity.
  - apply reply_get_missing. apply stored_short_gone; [assumption | lia].
Qed.

(** *** The POST handler, path by path *)

Lemma post_short_explicit cfg form w n :
  form_longUrl form <> "" ->
  read_shortUrlLen (form_shortUrlLen form) = inr n ->
  form_shortKey form <> "" ->
  let longUrl := fst (Base64.DecodeString (form_longUrl form)) in
  let current := Redis.reply_string (Redis.get (form_shortKey form) (db w)) in
  post_short cfg form w =
    if decide (current <> "" /\ current <> longUrl)
    then (mkResponse 0 msg_key_exists longUrl "", w)
    else (mkResponse 1 "" longUrl (short_url cfg (form_shortKey form)),
          with_db (Redis.set (form_shortKey form) longUrl (db w)) w).
Proof.
  intros Hurl Hlen Hkey. unfold post_short. rewrite Hlen.
  destruct (decide (form_longUrl form = "")); [contradiction|].
  destruct (decide (form_shortKey form <> "")); [|contradiction].
  unfold bind at 1, Do_get. cbn [fst snd].
  destruct (decide _); reflexivity.
Qed.

Lemma post_short_generated cfg form w n :
  form_longUrl form <> "" ->
  read_shortUrlLen (form_shortUrlLen form) = inr n ->
  form_shortKey form = "" ->
  let longUrl := fst (Base64.DecodeString (form_longUrl form)) in
  let r := longToShort longUrl (GoInt.mul (flag_ttl cfg) secondsPerDay)
             (Z.to_nat n) w in
  post_short cfg form w
  = (mkResponse 1 "" longUrl (short_url cfg (fst r)), snd r).
Proof.
  intros Hurl Hlen Hkey. unfold post_short. rewrite Hlen.
  destruct (decide (form_longUrl form = "")); [contradiction|].
  destruct (decide (form_shortKey form <> "")); [contradiction|].
  reflexivity.
Qed.

Lemma read_shortUrlLen_range s n :
  read_shortUrlLen s = inr n -> minShortUrlLen <= n <= maxShortUrlLen.
Proof.
  unfold read_shortUrlLen, minShortUrlLen, maxShortUrlLen.
  destruct (decide (s <> "")).
  - destruct (Strconv.Atoi s) as [m|]; [|discriminate].
    destruct (Z.leb_spec 1 m), (Z.leb_spec m 20); simpl; try discriminate.
    intros [= <-]. lia.
  - intros [= <-]. unfold defaultShortUrlLen. lia.
Qed.

Lemma shortToLong_fst k w :
  fst (shortToLong k w) = Redis.reply_string (Redis.get k (db w)).
Proof. reflexivity. Qed.

(** A creation that hits the index issues one EXPIRE, on the key the
    index names. *)
Lemma hit_effect url ttl len w k :
  Redis.reply_string (Redis.get (md5_key url) (db w)) = k -> k <> "" ->
  let r := longToShort url ttl len w in
  fst r = k /\
  db (snd r) = snd (Redis.expire k ttl (db w)) /\
  clock (snd r) = clock w /\ ticks (snd r) = ticks w.
Proof.
  intros Hk Hne r. subst r. rewrite longToShort_hit by congruence.
  rewrite Hk. simpl. auto.
Qed.

(** Whatever path a creation took, an index entry that is there
    afterwards names the key the creation returned. *)
Lemma index_after_create url ttl len w :
  let r := longToShort url ttl len w in
  ~ unmapped (snd r) (md5_key url) ->
  Redis.reply_string (Redis.get (md5_key url) (db (snd r))) = fst r.
Proof.
  intros r. subst r.
  destruct (decide (unmapped w (md5_key url))) as [Hmiss|Hhit].
  - rewrite longToShort_miss by assumption. cbv zeta.
    destruct (retry_3_candidate len w) as (i & _ & Hi).
    destruct (retry_3_world len w) as (Hdb & _).
    destruct (decide _) as [Hne|He]; cbn [fst snd db with_db].
    + intros _.
      erewrite reply_get
        by (apply stored_index; rewrite Hi; apply candidate_not_md5_key).
      reflexivity.
    + rewrite Hdb. contradiction.
  - rewrite longToShort_hit by assumption. cbn [fst snd db with_db].
    intros Hlive. apply reply_nonempty in Hlive as (e' & He' & Hv).
    rewrite <- Hv.
    apply expire_value in He' as (e & He & Hval).
    erewrite reply_get by eassumption. congruence.
Qed.

(** *** Renewal *)

Lemma wrap_small z :
  GoInt.min_int <= z <= GoInt.max_int -> GoInt.wrap z = z.
Proof.
  unfold GoInt.min_int, GoInt.max_int, GoInt.wrap. intros Hz.
  rewrite Z.mod_small; lia.
Qed.

Lemma with_db_same w : with_db (db w) w = w.
Proof. now destruct w. Qed.

Lemma renew_held k w :
  db w !! (defaultLockPrefix +:+ k) <> None -> renew k w = (tt, w).
Proof.
  intros Hlock. unfold renew, bind at 1, Do_setnx, Redis.setnx.
  destruct (db w !! (defaultLockPrefix +:+ k)); [|contradiction].
  cbn [fst snd]. destruct (decide _); [discriminate|].
  unfold ret. now rewrite with_db_same.
Qed.

Lemma shortToLong_held k w :
  db w !! (defaultLockPrefix +:+ k) <> None -> snd (shortToLong k w) = w.
Proof.
  intros Hlock. unfold shortToLong, bind, Do_get. cbn [fst snd].
  destruct (decide _); [now rewrite renew_held | reflexivity].
Qed.

(** The store after a renewal that took the lock. *)
Lemma renew_acquired k w e :
  db w !! (defaultLockPrefix +:+ k) = None ->
  db w !! k = Some e ->
  let locked :=
    <[defaultLockPrefix +:+ k :=
        Redis.Entry "1" (Some (Z.to_pos secondsPerDay))]> (db w) in
  snd (renew k w) =
    with_db
      match Redis.expiry e with
      | None => locked
      | Some t =>
          snd (Redis.expire k (GoInt.add (Z.pos t) secondsPerDay) locked)
      end w.
Proof.
  intros Hlock Hrec locked.
  pose proof (lock_key_fresh k) as Hfresh.
  unfold renew, bind, Do_setnx, Do_expire, Do_ttl, Redis.setnx.
  rewrite Hlock. cbn [fst snd db with_db].
  destruct (decide (1 = 1)); [|contradiction].
  change (defaultRenewalDay * secondsPerDay) with secondsPerDay.
  rewrite (expire_positive _ _ _ (Redis.Entry "1" None))
    by (apply lookup_insert_eq || reflexivity).
  cbn [fst snd db with_db Redis.value]. rewrite insert_insert_eq. fold locked.
  assert (Httl : Redis.ttl k locked
                 = match Redis.expiry e with Some t => Z.pos t | None => -1 end).
  { unfold Redis.ttl. subst locked. now rewrite lookup_insert_ne, Hrec. }
  rewrite Httl. destruct (Redis.expiry e) as [t|].
  - destruct (decide _) as [_|Hn]; [|lia]. reflexivity.
  - destruct (decide _) as [Hn|_]; [contradiction|]. reflexivity.
Qed.

Lemma total_nonneg delays : Forall (fun d => 0 <= d) delays -> 0 <= total delays.
Proof. induction 1; simpl; lia. Qed.

(** While the lock lives, resolutions only let the record age. *)
Lemma resolve_again_held k delays : forall w v lock_left u left,
  db w !! (defaultLockPrefix +:+ k)
    = Some (Redis.Entry v (Some lock_left)) ->
  db w !! k = Some (Redis.Entry u (Some left)) ->
  Forall (fun d => 0 <= d) delays ->
  total delays < Z.pos lock_left -> total delays < Z.pos left ->
  db (resolve_again k delays w) !! k
  = Some (Redis.Entry u (Some (Z.to_pos (Z.pos left - total delays)))).
Proof.
  induction delays as [|d delays IH]; intros w v lock_left u left Hl Hr Hd Hll Hlr.
  - simpl. rewrite Hr. reflexivity.
  - inversion Hd as [|? ? Hd0 Hds]; subst. simpl in Hll, Hlr.
    pose proof (total_nonneg delays Hds).
    change (resolve_again k (d :: delays) w)
      with (resolve_again k delays (snd (shortToLong k (wait d w)))).
    pose proof (elapse_ttl (db w) _ d _ _ Hl eq_refl ltac:(lia)) as Hl'.
    pose proof (elapse_ttl (db w) _ d _ _ Hr eq_refl ltac:(lia)) as Hr'.
    rewrite shortToLong_held
      by (cbn [db wait with_db]; rewrite Hl'; discriminate).
    cbn [Redis.value] in Hl', Hr'.
    rewrite (IH (wait d w) _ _ _ _ Hl' Hr' Hds);
      [| rewrite Z2Pos.id; lia ..].
    do 3 f_equal. rewrite Z2Pos.id by lia.
    change (total (d :: delays)) with (d + total delays). f_equal. lia.
Qed.

Lemma shortToLong_found k w e :
  db w !! k = Some e -> Redis.value e <> "" ->
  shortToLong k w = (Redis.value e, snd (renew k w)).
Proof.
  intros Hrec Hval. unfold shortToLong, bind, Do_get, ret. cbn [fst snd].
  rewrite (reply_get _ _ _ Hrec).
  destruct (decide _); [reflexivity | contradiction].
Qed.

Lemma get_short_fst k w :
  fst (get_short k w)
  = if decide (unmapped w k) then NotFound
    else MovedPermanently (Redis.reply_string (Redis.get k (db w))).
Proof.
  unfold get_short, bind. rewrite shortToLong_fst.
  destruct (decide _); reflexivity.
Qed.

(** Under a clock that does not move, every iteration of the loop
    draws the key of the first. *)
Lemma coarse_clock_one_candidate w i bits :
  clock w (ticks w + i)%nat = clock w (ticks w) ->
  candidate w i bits = candidate w 0 bits.
Proof.
  intros E. unfold candidate. now rewrite E, Nat.add_0_r.
Qed.

End EngineFacts.

(** * The claims of the specification *)

Section Claims.

Context `{Rand}.

(** C1. A creation request with a non-empty explicit short key: when
    the key maps to a non-empty value other than the given long URL,
    the request fails with the key-conflict message and the world is
    left as it was; otherwise the pair (key, long URL) is written with
    SET and the key is returned at once, the record carries no time to
    live, and no other key of the store (the dedup index included) is
    touched. *)
Theorem explicit_key_conflict_or_write cfg form w n :
  form_longUrl form <> "" ->
  read_shortUrlLen (form_shortUrlLen form) = inr n ->
  form_shortKey form <> "" ->
  let key := form_shortKey form in
  let longUrl := fst (Base64.DecodeString (form_longUrl form)) in
  let current := Redis.reply_string (Redis.get key (db w)) in
  let r := post_short cfg form w in
  (current <> "" /\ current <> longUrl ->
     fst r = mkResponse 0 msg_key_exists longUrl "" /\ snd r = w) /\
  (current = "" \/ current = longUrl ->
     fst r = mkResponse 1 "" longUrl (short_url cfg key) /\
     db (snd r) !! key = Some (Redis.Entry longUrl None) /\
     Redis.ttl key (db (snd r)) = -1 /\
     (forall k, k <> key -> db (snd r) !! k = db w !! k) /\
     clock (snd r) = clock w /\ ticks (snd r) = ticks w).
Proof.
  intros Hurl Hlen Hkey key longUrl current r. subst r.
  rewrite (post_short_explicit cfg form w n) by assumption.
  fold key longUrl current. split.
  - intros Hc. destruct (decide _); [auto | contradiction].
  - intros Hc. destruct (decide _) as [[Ha Hb]|_].
    + destruct Hc; contradiction.
    + cbn [fst snd db with_db clock ticks]. unfold Redis.set, Redis.ttl.
      rewrite lookup_insert_eq. repeat split.
      intros k Hk. now apply lookup_insert_ne.
Qed.

(** C2, as amended. A generated-key creation with a positive time to
    live and a length of at least one, followed at once by a
    resolution of the key it returned, gives back the long URL that
    was submitted, provided the creation missed the dedup index or hit
    an entry whose short key still maps to that long URL. *)
Theorem create_then_resolve url ttl len w :
  0 < ttl -> (1 <= len)%nat ->
  let existsKey := Redis.reply_string (Redis.get (md5_key url) (db w)) in
  existsKey = "" \/ Redis.get existsKey (db w) = Some url ->
  let r := longToShort url ttl len w in
  fst (shortToLong (fst r) (snd r)) = url.
Proof.
  intros Httl Hlen existsKey Hok r. subst r. rewrite shortToLong_fst.
  destruct (decide (existsKey = "")) as [Hmiss|Hhit].
  - rewrite longToShort_miss by assumption. cbv zeta.
    destruct (retry_3_candidate len w) as (i & _ & Hi).
    destruct (decide _) as [_|He].
    + cbn [fst snd db with_db]. rewrite stored_reply.
      * destruct (decide _); [reflexivity | contradiction].
      * rewrite Hi. apply candidate_not_md5_key.
    + exfalso. apply He. rewrite Hi. now apply candidate_nonempty.
  - destruct Hok as [|Hrec]; [contradiction|].
    rewrite longToShort_hit by assumption. cbn [fst snd db with_db].
    fold existsKey. unfold Redis.get in Hrec.
    destruct (db w !! existsKey) as [e|] eqn:E; [|discriminate].
    injection Hrec as Hval.
    rewrite (expire_positive _ _ _ e) by assumption. simpl.
    erewrite reply_get by apply lookup_insert_eq. assumption.
Qed.

(** C3, as amended. Two generated-key creations for the same long
    URL, the second while the dedup index entry written or found by
    the first is still there, return the same short key; the second
    resets the time to live of the short-link record to the requested
    seconds when that record still exists and the seconds are
    positive, and creates no record when it has gone. *)
Theorem repeated_create_same_key url ttl1 ttl2 len1 len2 dt w :
  let first := longToShort url ttl1 len1 w in
  let w' := wait dt (snd first) in
  ~ unmapped w' (md5_key url) ->
  let second := longToShort url ttl2 len2 w' in
  fst second = fst first /\
  (forall e, db w' !! fst first = Some e -> 0 < ttl2 ->
     db (snd second) !! fst first
     = Some (Redis.Entry (Redis.value e) (Some (Z.to_pos ttl2))) /\
     Redis.ttl (fst first) (db (snd second)) = ttl2) /\
  (db w' !! fst first = None -> db (snd second) !! fst first = None).
Proof.
  intros first w' Hlive second.
  assert (Hk : Redis.reply_string (Redis.get (md5_key url) (db w')) = fst first).
  { subst w'. cbn [db wait with_db] in *.
    rewrite elapse_reply by assumption.
    apply index_after_create.
    rewrite <- (elapse_reply _ _ dt) by assumption. assumption. }
  assert (Hne : fst first <> "") by congruence.
  destruct (hit_effect url ttl2 len2 w' (fst first) Hk Hne) as (Hr & Hdb & _).
  fold second in Hr, Hdb. split; [assumption|]. rewrite Hdb. split.
  - intros e He Httl. rewrite (expire_positive _ _ _ e) by assumption.
    simpl. unfold Redis.ttl. rewrite lookup_insert_eq. simpl.
    split; [reflexivity | lia].
  - intros Hgone. now rewrite expire_missing.
Qed.

(** C4, as amended. A generated-key creation that hits a dedup index
    entry issues a single EXPIRE, on the short key the entry names;
    the entry itself, unless it names its own key, keeps its value and
    the time to live it had. *)
Theorem hit_leaves_index_alone url ttl len w :
  ~ unmapped w (md5_key url) ->
  let existsKey := Redis.reply_string (Redis.get (md5_key url) (db w)) in
  let r := longToShort url ttl len w in
  fst r = existsKey /\
  db (snd r) = snd (Redis.expire existsKey ttl (db w)) /\
  (existsKey <> md5_key url ->
     db (snd r) !! md5_key url = db w !! md5_key url /\
     Redis.ttl (md5_key url) (db (snd r)) = Redis.ttl (md5_key url) (db w)).
Proof.
  intros Hhit existsKey r.
  destruct (hit_effect url ttl len w existsKey eq_refl Hhit) as (Hr & Hdb & _).
  fold r in Hr, Hdb. repeat split; try assumption.
  - rewrite Hdb. now apply expire_other.
  - unfold Redis.ttl. rewrite Hdb. now rewrite expire_other.
Qed.

(** C5. On a dedup-index miss the creation reads the clock at most
    three times, once per iteration; every candidate has the desired
    length; the key is the first of the first two candidates whose
    lookup is empty and the third candidate otherwise, whether or not
    that one is mapped; in that last case the records are written all
    the same, over whatever the third candidate mapped to. *)
Theorem generation_loop_bounded url ttl len w :
  unmapped w (md5_key url) ->
  let c := fun i => candidate w i len in
  let r := longToShort url ttl len w in
  (forall i, String.length (c i) = len) /\
  (ticks w < ticks (snd r) <= ticks w + 3)%nat /\
  (unmapped w (c 0%nat) ->
     fst r = c 0%nat /\ ticks (snd r) = (ticks w + 1)%nat) /\
  (~ unmapped w (c 0%nat) -> unmapped w (c 1%nat) ->
     fst r = c 1%nat /\ ticks (snd r) = (ticks w + 2)%nat) /\
  (~ unmapped w (c 0%nat) -> ~ unmapped w (c 1%nat) ->
     fst r = c 2%nat /\ ticks (snd r) = (ticks w + 3)%nat /\
     ((1 <= len)%nat ->
        db (snd r) = stored (c 2%nat) url ttl (db w) /\
        (0 < ttl ->
           db (snd r) !! c 2%nat
           = Some (Redis.Entry url (Some (Z.to_pos ttl)))))).
Proof.
  intros Hmiss c r.
  destruct (longToShort_miss_parts url ttl len w Hmiss)
    as (Hkey & Hticks & Hdb).
  fold r in Hkey, Hticks, Hdb.
  pose proof (retry_3_world len w) as (_ & _ & Hbound).
  split; [intros i; apply candidate_length|].
  split; [rewrite Hticks; exact Hbound|].
  rewrite Hticks, Hkey. clear Hbound. rewrite retry_3 in *.
  fold (c 0%nat) (c 1%nat) (c 2%nat) in *. split; [|split].
  - intros H0. destruct (decide (unmapped w (c 0%nat))); [|contradiction].
    split; reflexivity.
  - intros H0 H1.
    destruct (decide (unmapped w (c 0%nat))); [contradiction|].
    destruct (decide (unmapped w (c 1%nat))); [|contradiction].
    split; reflexivity.
  - intros H0 H1.
    destruct (decide (unmapped w (c 0%nat))); [contradiction|].
    destruct (decide (unmapped w (c 1%nat))); [contradiction|].
    cbn [fst snd ticks advance] in *.
    split; [reflexivity|]. split; [reflexivity|]. intros Hlen.
    assert (Hne : c 2%nat <> "") by now apply candidate_nonempty.
    rewrite (Hdb Hne). split; [reflexivity|].
    intros Httl. apply stored_short; [|assumption].
    apply candidate_not_md5_key.
Qed.

(** C6. A resolution that finds the record and takes the renewal lock
    gives the lock a time to live of one day and, when the record has
    an expiration, sets the record's time to live to what was left
    plus one day; a record without expiration is left as it is.  A
    resolution that finds the lock held changes nothing.  So after the
    first resolution, any number of further resolutions spread over
    less than a day leave the time to live at the original plus one
    day, less the time gone by. *)
Theorem renewal_once_per_window shortKey w e :
  db w !! shortKey = Some e -> Redis.value e <> "" ->
  let lockKey := defaultLockPrefix +:+ shortKey in
  let after := snd (shortToLong shortKey w) in
  (db w !! lockKey = None ->
     db after !! lockKey
     = Some (Redis.Entry "1" (Some (Z.to_pos secondsPerDay))) /\
     (forall k, k <> lockKey -> k <> shortKey -> db after !! k = db w !! k) /\
     (forall t, Redis.expiry e = Some t ->
        Z.pos t + secondsPerDay <= GoInt.max_int ->
        Redis.get shortKey (db after) = Some (Redis.value e) /\
        Redis.ttl shortKey (db after) = Z.pos t + secondsPerDay /\
        forall delays,
          Forall (fun d => 0 <= d) delays -> total delays < secondsPerDay ->
          Redis.ttl shortKey (db (resolve_again shortKey delays after))
          = Z.pos t + secondsPerDay - total delays /\
          Redis.ttl shortKey (db (resolve_again shortKey delays after))
          <= Z.pos t + secondsPerDay) /\
     (Redis.expiry e = None -> db after !! shortKey = Some e)) /\
  (db w !! lockKey <> None -> after = w).
Proof.
  intros Hrec Hval lockKey after.
  pose proof (lock_key_fresh shortKey) as Hfresh. fold lockKey in Hfresh.
  split; [|intros Hheld; now apply shortToLong_held].
  intros Hfree. subst after.
  rewrite (shortToLong_found _ _ _ Hrec Hval). cbn [snd].
  rewrite (renew_acquired _ _ _ Hfree Hrec). cbv zeta. fold lockKey.
  set (locked := <[lockKey := _]> (db w)).
  assert (Hk : locked !! shortKey = Some e)
    by (subst locked; now rewrite lookup_insert_ne).
  destruct (Redis.expiry e) as [t|] eqn:Ht; cbn [db with_db].
  - split; [|split; [|split; [|discriminate]]].
    + rewrite expire_other by congruence. apply lookup_insert_eq.
    + intros k Hk1 Hk2. rewrite expire_other by congruence.
      now apply lookup_insert_ne.
    + intros t' [= <-] Hmax.
      unfold GoInt.add. rewrite wrap_small
        by (unfold GoInt.min_int, GoInt.max_int, secondsPerDay in *; lia).
      rewrite (expire_positive _ _ _ e Hk)
        by (unfold secondsPerDay; lia).
      cbn [snd]. set (d1 := <[shortKey := _]> locked).
      assert (Hr : d1 !! shortKey
                   = Some (Redis.Entry (Redis.value e)
                             (Some (Z.to_pos (Z.pos t + secondsPerDay)))))
        by apply lookup_insert_eq.
      assert (Hl : d1 !! lockKey
                   = Some (Redis.Entry "1" (Some (Z.to_pos secondsPerDay)))).
      { subst d1 locked. rewrite lookup_insert_ne by congruence.
        apply lookup_insert_eq. }
      split; [unfold Redis.get; now rewrite Hr|].
      split.
      * unfold Redis.ttl. rewrite Hr. cbn [Redis.expiry].
        rewrite Z2Pos.id; [reflexivity | unfold secondsPerDay; lia].
      * intros delays Hd Htot.
        pose proof (total_nonneg delays Hd) as Hpos.
        unfold Redis.ttl.
        rewrite (resolve_again_held shortKey delays
                   (with_db d1 w) _ _ _ _ Hl Hr Hd);
          [| (rewrite Z2Pos.id; unfold secondsPerDay in *; lia) ..].
        cbn [Redis.expiry].
        rewrite !Z2Pos.id; unfold secondsPerDay in *; lia.
  - split; [|split; [|split; [discriminate|]]].
    + apply lookup_insert_eq.
    + intros k Hk1 Hk2. now apply lookup_insert_ne.
    + intros _. assumption.
Qed.

(** C7, as amended. [generate] makes a new source on every call and
    seeds it with the clock reading of that call: a call that reads
    the value the call before it read returns the same key, and under
    a clock that stands still during a creation all three iterations
    of the loop test that one key, which the creation returns whether
    or not it is mapped. *)
Theorem generate_seeded_per_call bits w :
  clock w (ticks w + 1)%nat = clock w (ticks w) ->
  fst (generate bits (snd (generate bits w))) = fst (generate bits w) /\
  (clock w (ticks w + 2)%nat = clock w (ticks w) ->
   forall url ttl,
     unmapped w (md5_key url) ->
     fst (longToShort url ttl bits w) = fst (generate bits w)).
Proof.
  intros H1. rewrite !generate_eq. cbn [fst snd].
  rewrite candidate_advance, Nat.add_0_r.
  split; [now apply coarse_clock_one_candidate|].
  intros H2 url ttl Hmiss.
  destruct (longToShort_miss_parts url ttl bits w Hmiss) as (-> & _).
  rewrite retry_3.
  rewrite (coarse_clock_one_candidate w 1), (coarse_clock_one_candidate w 2)
    by assumption.
  repeat destruct (decide _); reflexivity.
Qed.

(** C8, as amended. An empty long URL, a desired length that is not a
    number and one outside 1 to 20 are refused, each with its message
    and without touching the store; the explicit short key is not
    examined: whatever its form, the request is refused only when the
    key maps to a different non-empty long URL, and succeeds
    otherwise. *)
Theorem invalid_input_refused cfg form w :
  let r := post_short cfg form w in
  (form_longUrl form = "" ->
     r = (mkResponse 0 msg_longUrl_empty "" "", w)) /\
  (form_longUrl form <> "" -> form_shortUrlLen form <> "" ->
     Strconv.Atoi (form_shortUrlLen form) = None ->
     r = (mkResponse 0 msg_len_not_number "" "", w)) /\
  (form_longUrl form <> "" -> form_shortUrlLen form <> "" ->
     forall n, Strconv.Atoi (form_shortUrlLen form) = Some n ->
     n < minShortUrlLen \/ maxShortUrlLen < n ->
     r = (mkResponse 0 msg_len_range "" "", w)) /\
  (form_longUrl form <> "" ->
     forall n, read_shortUrlLen (form_shortUrlLen form) = inr n ->
     form_shortKey form <> "" ->
     let longUrl := fst (Base64.DecodeString (form_longUrl form)) in
     let current :=
       Redis.reply_string (Redis.get (form_shortKey form) (db w)) in
     (current <> "" /\ current <> longUrl ->
        fst r = mkResponse 0 msg_key_exists longUrl "") /\
     (current = "" \/ current = longUrl ->
        fst r = mkResponse 1 "" longUrl (short_url cfg (form_shortKey form)) /\
        Redis.get (form_shortKey form) (db (snd r)) = Some longUrl)).
Proof.
  intros r. subst r. split; [|split; [|split]].
  - intros E. unfold post_short.
    destruct (decide _); [reflexivity | contradiction].
  - intros Hurl Hs Hnum. unfold post_short, read_shortUrlLen.
    destruct (decide (form_longUrl form = "")); [contradiction|].
    destruct (decide (form_shortUrlLen form <> "")); [|contradiction].
    now rewrite Hnum.
  - intros Hurl Hs n Hnum Hout. unfold post_short, read_shortUrlLen.
    destruct (decide (form_longUrl form = "")); [contradiction|].
    destruct (decide (form_shortUrlLen form <> "")); [|contradiction].
    rewrite Hnum.
    destruct (Z.leb_spec minShortUrlLen n), (Z.leb_spec n maxShortUrlLen);
      simpl; (reflexivity || lia).
  - intros Hurl n Hlen Hkey longUrl current.
    rewrite (post_short_explicit cfg form w n) by assumption.
    fold longUrl current. split; intros Hc.
    + destruct (decide _); [reflexivity | contradiction].
    + destruct (decide _) as [[Ha Hb]|_]; [destruct Hc; contradiction|].
      split; [reflexivity|]. cbn [snd db with_db].
      unfold Redis.get, Redis.set. now rewrite lookup_insert_eq.
Qed.

(** C9. A request whose [longUrl] field is not empty is served with
    the bytes the decoder returned, whatever error came with them: it
    answers as any request with the same decoded bytes does, never
    with one of the invalid-input messages, and with success unless an
    explicit key is in conflict.  What it stores under the returned
    key is those bytes; when they are empty, resolving the returned
    key gives not-found. *)
Theorem undecodable_longUrl_served cfg form w n :
  form_longUrl form <> "" ->
  read_shortUrlLen (form_shortUrlLen form) = inr n ->
  let longUrl := fst (Base64.DecodeString (form_longUrl form)) in
  let r := post_short cfg form w in
  (forall other,
     other <> "" ->
     fst (Base64.DecodeString other) = longUrl ->
     post_short cfg
       (mkForm other (form_shortKey form) (form_shortUrlLen form)) w = r) /\
  LongUrl (fst r) = longUrl /\
  (Code (fst r) = 1 \/
   form_shortKey form <> "" /\ fst r = mkResponse 0 msg_key_exists longUrl "") /\
  (form_shortKey form <> "" -> Code (fst r) = 1 ->
     Redis.get (form_shortKey form) (db (snd r)) = Some longUrl /\
     (longUrl = "" -> fst (get_short (form_shortKey form) (snd r)) = NotFound)) /\
  (form_shortKey form = "" ->
     Code (fst r) = 1 /\
     (unmapped w (md5_key longUrl) ->
      exists key,
        ShortUrl (fst r) = short_url cfg key /\
        (0 < GoInt.mul (flag_ttl cfg) secondsPerDay ->
           Redis.get key (db (snd r)) = Some longUrl) /\
        (longUrl = "" -> fst (get_short key (snd r)) = NotFound))).
Proof.
  intros Hurl Hlen longUrl r.
  pose proof (read_shortUrlLen_range _ _ Hlen) as Hn.
  unfold minShortUrlLen in Hn.
  split; [|destruct (decide (form_shortKey form = "")) as [Hk|Hk]].
  - intros other Ho Hd. subst r longUrl. unfold post_short. cbn [form_longUrl
      form_shortKey form_shortUrlLen]. rewrite Hlen, Hd.
    destruct (decide (other = "")); [contradiction|].
    destruct (decide (form_longUrl form = "")); [contradiction|].
    reflexivity.
  - subst r. rewrite (post_short_generated cfg form w n) by assumption.
    fold longUrl. cbn [fst snd LongUrl Code ShortUrl].
    set (ttl := GoInt.mul (flag_ttl cfg) secondsPerDay).
    split; [reflexivity|]. split; [now left|].
    split; [intros; contradiction|]. intros _. split; [reflexivity|].
    intros Hmiss.
    destruct (longToShort_miss_parts longUrl ttl (Z.to_nat n) w Hmiss)
      as (Hkey & _ & Hdb).
    destruct (retry_3_candidate (Z.to_nat n) w) as (i & _ & Hi).
    rewrite Hi in Hkey, Hdb.
    assert (Hne : candidate w i (Z.to_nat n) <> "")
      by (apply candidate_nonempty; lia).
    exists (candidate w i (Z.to_nat n)). rewrite Hkey, (Hdb Hne).
    pose proof (stored_reply (candidate w i (Z.to_nat n)) longUrl ttl (db w)
                  (candidate_not_md5_key _ _ _ _)) as Hrep.
    split; [reflexivity|]. split.
    + intros Httl. unfold Redis.get.
      rewrite stored_short by (assumption || apply candidate_not_md5_key).
      reflexivity.
    + intros He. rewrite get_short_fst, (Hdb Hne), Hrep.
      destruct (decide (0 < ttl)); rewrite ?He;
        (destruct (decide _); [reflexivity | contradiction]).
  - subst r. rewrite (post_short_explicit cfg form w n) by assumption.
    fold longUrl. cbv zeta.
    destruct (decide _) as [Hc|Hc]; cbn [fst snd LongUrl Code db with_db].
    + split; [reflexivity|]. split; [right; now split|].
      split; [intros _ [=] | intros; contradiction].
    + split; [reflexivity|]. split; [now left|].
      split; [|intros; contradiction]. intros _ _.
      assert (Hs : Redis.get (form_shortKey form)
                     (Redis.set (form_shortKey form) longUrl (db w))
                   = Some longUrl)
        by (unfold Redis.get, Redis.set; now rewrite lookup_insert_eq).
      split; [assumption|]. intros He.
      rewrite get_short_fst. cbn [db with_db]. rewrite Hs. cbn.
      destruct (decide _); [reflexivity | contradiction].
Qed.

(** C10. An explicit-key creation whose key maps to the identical
    long URL writes the record again with SET: the value stays and the
    time to live the record had is gone.  So a key that a generated
    creation returned, sent back as explicit key with its long URL,
    turns from a record that expires into one that does not. *)
Theorem explicit_rewrite_drops_expiry cfg form w n e :
  form_longUrl form <> "" ->
  read_shortUrlLen (form_shortUrlLen form) = inr n ->
  form_shortKey form <> "" ->
  db w !! form_shortKey form = Some e ->
  Redis.value e = fst (Base64.DecodeString (form_longUrl form)) ->
  let r := post_short cfg form w in
  Code (fst r) = 1 /\
  db (snd r) !! form_shortKey form = Some (Redis.Entry (Redis.value e) None) /\
  Redis.ttl (form_shortKey form) (db (snd r)) = -1 /\
  (forall w0 ttl len,
     0 < ttl ->
     unmapped w0 (md5_key (Redis.value e)) ->
     longToShort (Redis.value e) ttl len w0 = (form_shortKey form, w) ->
     Redis.ttl (form_shortKey form) (db w) = ttl).
Proof.
  intros Hurl Hlen Hkey Hrec Hval r. subst r.
  rewrite (post_short_explicit cfg form w n) by assumption. cbv zeta.
  rewrite (reply_get _ _ _ Hrec), <- Hval.
  destruct (decide _) as [[_ Hb]|_]; [contradiction|].
  cbn [fst snd Code db with_db]. unfold Redis.set, Redis.ttl at 1.
  rewrite lookup_insert_eq. repeat split.
  intros w0 ttl len Httl Hmiss Hcreate.
  destruct (longToShort_miss_parts (Redis.value e) ttl len w0 Hmiss)
    as (Hk & _ & Hdb).
  rewrite Hcreate in Hk, Hdb. cbn [fst snd] in Hk, Hdb.
  destruct (retry_3_candidate len w0) as (i & _ & Hi).
  rewrite <- Hk in Hi, Hdb. unfold Redis.ttl.
  rewrite (Hdb Hkey), stored_short
    by (assumption || rewrite Hi; apply candidate_not_md5_key).
  cbn [Redis.expiry]. now rewrite Z2Pos.id.
Qed.

End Claims.

(** * The claims on concrete requests *)

Lemma explicit_key_conflict_or_write_witness :
  form_longUrl (form_x_as "abc") <> "" /\
  form_shortKey (form_x_as "abc") <> "" /\
  post_short sample_config (form_x_as "abc") fresh
  = (mkResponse 1 "" "http://x" "https://s.example/abc",
     with_db (<["abc" := Redis.Entry "http://x" None]> ∅) fresh) /\
  fst (post_short sample_config (form_x_as "abc")
         (snd (post_short sample_config
                 {| form_longUrl := "aHR0cDovL3k="; form_shortKey := "abc";
                    form_shortUrlLen := "" |} fresh)))
  = mkResponse 0 msg_key_exists "http://x" "".
Proof.
  assert (H1 : form_longUrl (form_x_as "abc") <> "") by discriminate.
  assert (H2 : form_shortKey (form_x_as "abc") <> "") by discriminate.
  split; [exact H1|]. split; [exact H2|]. split.
  - destruct (explicit_key_conflict_or_write sample_config (form_x_as "abc")
                fresh 6 H1 eq_refl H2) as (_ & Hwrite).
    destruct (Hwrite (or_introl eq_refl)) as (Hres & _).
    apply injective_projections; [exact Hres | reflexivity].
  - set (w := snd (post_short sample_config _ fresh)).
    destruct (explicit_key_conflict_or_write sample_config (form_x_as "abc")
                w 6 H1 eq_refl H2) as (Hconflict & _).
    apply Hconflict. split; vm_compute; discriminate.
Defined.

(** C2 as the specification has it fails: created for ten seconds and
    created again eleven seconds later, http://x comes back with a key
    that resolves to nothing; and with the default time to live, once a
    request has written the index entry of http://x as its explicit key,
    the creation for http://x answers with a key that is not found. *)
Lemma roundtrip_lost_on_stale_index :
  ("http://x" <> "" /\ 0 < 10 /\
   fst (shortToLong (fst (@longToShort lcg_rand "http://x" 10 6 lapsed))
          (snd (@longToShort lcg_rand "http://x" 10 6 lapsed))) <> "http://x") /\
  (fst (@post_short lcg_rand sample_config form_x planted)
   = mkResponse 1 "" "http://x" "https://s.example/nowhere" /\
   fst (get_short "nowhere"
          (snd (@post_short lcg_rand sample_config form_x planted))) = NotFound).
Proof.
  split; [split; [discriminate | split; [reflexivity | vm_compute; discriminate]]|].
  split; vm_compute; reflexivity.
Qed.

Lemma create_then_resolve_witness :
  0 < 864000 /\ (1 <= 6)%nat /\
  fst (shortToLong (fst issued) (snd issued)) = "http://x" /\
  fst (shortToLong (fst (@longToShort lcg_rand "http://x" 864000 6 aged))
         (snd (@longToShort lcg_rand "http://x" 864000 6 aged))) = "http://x".
Proof.
  split; [reflexivity|]. split; [lia|]. split.
  - apply (create_then_resolve "http://x" 864000 6 fresh);
      [reflexivity | lia | left; vm_compute; reflexivity].
  - apply (create_then_resolve "http://x" 864000 6 aged);
      [reflexivity | lia | right; vm_compute; reflexivity].
Defined.

(** C3 as the specification has it fails: eleven seconds after a
    creation for ten seconds, the second creation hits the index and
    returns the key of the first, and the record has no time to live of
    ten seconds, for there is no record. *)
Lemma hit_on_lapsed_record_sets_no_ttl :
  ~ unmapped lapsed (md5_key "http://x") /\
  fst (@longToShort lcg_rand "http://x" 10 6 lapsed) = fst brief /\
  Redis.ttl (fst brief) (db (snd (@longToShort lcg_rand "http://x" 10 6 lapsed)))
  = -2 /\
  Redis.ttl (fst brief) (db (snd (@longToShort lcg_rand "http://x" 10 6 lapsed)))
  <> 10.
Proof.
  split; [vm_compute; discriminate|]. split; [vm_compute; reflexivity|].
  split; [vm_compute; reflexivity | vm_compute; discriminate].
Qed.

Lemma repeated_create_same_key_witness :
  ~ unmapped aged (md5_key "http://x") /\
  fst (@longToShort lcg_rand "http://x" 3600 6 aged) = fst issued /\
  Redis.ttl (fst issued)
    (db (snd (@longToShort lcg_rand "http://x" 3600 6 aged))) = 3600.
Proof.
  assert (Hlive : ~ unmapped aged (md5_key "http://x"))
    by (vm_compute; discriminate).
  split; [exact Hlive|].
  destruct (repeated_create_same_key "http://x" 864000 3600 6 6 100 fresh Hlive)
    as (Hkey & Hreset & _).
  split; [exact Hkey|].
  refine (proj2 (Hreset (Redis.Entry "http://x" (Some 863900%positive)) _ _));
    [vm_compute; reflexivity | reflexivity].
Defined.

(** C4 as the specification has it fails: the creation that hits the
    index a hundred seconds after the first leaves the entry with the
    86300 seconds it had, not with a day. *)
Lemma hit_does_not_refresh_index :
  ~ unmapped aged (md5_key "http://x") /\
  Redis.ttl (md5_key "http://x") (db aged) = 86300 /\
  Redis.ttl (md5_key "http://x")
    (db (snd (@longToShort lcg_rand "http://x" 864000 6 aged))) = 86300 /\
  Redis.ttl (md5_key "http://x")
    (db (snd (@longToShort lcg_rand "http://x" 864000 6 aged))) <> secondsPerDay.
Proof.
  split; [vm_compute; discriminate|]. split; [vm_compute; reflexivity|].
  split; [vm_compute; reflexivity | vm_compute; discriminate].
Qed.

Lemma hit_leaves_index_alone_witness :
  ~ unmapped aged (md5_key "http://x") /\
  db (snd (@longToShort lcg_rand "http://x" 864000 6 aged)) !! md5_key "http://x"
  = db aged !! md5_key "http://x".
Proof.
  assert (Hlive : ~ unmapped aged (md5_key "http://x"))
    by (vm_compute; discriminate).
  split; [exact Hlive|].
  destruct (hit_leaves_index_alone "http://x" 864000 6 aged Hlive)
    as (_ & _ & Hindex).
  apply Hindex. vm_compute. discriminate.
Defined.

Lemma generation_loop_bounded_witness :
  unmapped crowded (md5_key "http://y") /\
  ~ unmapped crowded (candidate crowded 2 6) /\
  fst (@longToShort lcg_rand "http://y" 864000 6 crowded) = candidate crowded 2 6 /\
  ticks (snd (@longToShort lcg_rand "http://y" 864000 6 crowded))
  = (ticks crowded + 3)%nat /\
  db (snd (@longToShort lcg_rand "http://y" 864000 6 crowded))
    !! candidate crowded 2 6
  = Some (Redis.Entry "http://y" (Some 864000%positive)).
Proof.
  assert (Hmiss : unmapped crowded (md5_key "http://y"))
    by (vm_compute; reflexivity).
  split; [exact Hmiss|]. split; [vm_compute; discriminate|].
  destruct (generation_loop_bounded "http://y" 864000 6 crowded Hmiss)
    as (_ & _ & _ & _ & Hlast).
  destruct Hlast as (Hkey & Hticks & Hwrite);
    [vm_compute; discriminate | vm_compute; discriminate |].
  split; [exact Hkey|]. split; [exact Hticks|].
  apply Hwrite; [lia | reflexivity].
Defined.

Lemma renewal_once_per_window_witness :
  db (snd brief) !! fst brief
  = Some (Redis.Entry "http://x" (Some 10%positive)) /\
  Redis.ttl (fst brief) (db (snd (shortToLong (fst brief) (snd brief)))) = 86410 /\
  Redis.ttl (fst brief)
    (db (resolve_again (fst brief) [3600; 3600; 3600]
           (snd (shortToLong (fst brief) (snd brief))))) = 75610.
Proof.
  assert (Hrec : db (snd brief) !! fst brief
                 = Some (Redis.Entry "http://x" (Some 10%positive)))
    by (vm_compute; reflexivity).
  split; [exact Hrec|].
  destruct (renewal_once_per_window (fst brief) (snd brief) _ Hrec
              ltac:(discriminate)) as (Hfree & _).
  destruct (Hfree ltac:(vm_compute; reflexivity)) as (_ & _ & Hexp & _).
  destruct (Hexp 10%positive eq_refl ltac:(vm_compute; discriminate))
    as (_ & Httl & Hagain).
  split; [exact Httl|].
  refine (proj1 (Hagain [3600; 3600; 3600] _ _));
    [repeat constructor; lia | reflexivity].
Defined.

(** C7 as the specification has it fails: two calls of [generate] that
    read the same nanosecond return the same key. *)
Lemma same_nanosecond_same_key :
  clock fresh_coarse 0 = clock fresh_coarse 1 /\
  fst (@generate lcg_rand 6 (snd (@generate lcg_rand 6 fresh_coarse)))
  = fst (@generate lcg_rand 6 fresh_coarse).
Proof. split; reflexivity. Qed.

Lemma generate_seeded_per_call_witness :
  fst (@generate lcg_rand 6 (snd (@generate lcg_rand 6 fresh_coarse)))
  = fst (@generate lcg_rand 6 fresh_coarse) /\
  fst (@longToShort lcg_rand "http://y" 864000 6 crowded)
  = fst (@generate lcg_rand 6 crowded).
Proof.
  destruct (generate_seeded_per_call 6 fresh_coarse eq_refl) as (Hsame & _).
  split; [exact Hsame|].
  destruct (generate_seeded_per_call 6 crowded eq_refl) as (_ & Hloop).
  apply Hloop; [reflexivity | vm_compute; reflexivity].
Defined.

(** C8 as the specification has it fails: a key with blanks and a
    punctuation mark, which is no short key of the data model, is
    accepted and written. *)
Lemma malformed_key_accepted :
  spec_well_formed_key "not a key!" = false /\
  fst (post_short sample_config (form_x_as "not a key!") fresh)
  = mkResponse 1 "" "http://x" "https://s.example/not a key!" /\
  db (snd (post_short sample_config (form_x_as "not a key!") fresh))
    !! "not a key!"
  = Some (Redis.Entry "http://x" None).
Proof. repeat split; vm_compute; reflexivity. Qed.

Lemma invalid_input_refused_witness :
  post_short sample_config (mkForm "" "abc" "6") fresh
  = (mkResponse 0 msg_longUrl_empty "" "", fresh) /\
  post_short sample_config (mkForm "aHR0cDovL3g=" "" "six") fresh
  = (mkResponse 0 msg_len_not_number "" "", fresh) /\
  post_short sample_config (mkForm "aHR0cDovL3g=" "" "21") fresh
  = (mkResponse 0 msg_len_range "" "", fresh) /\
  fst (post_short sample_config (form_x_as "myurls:lock:abc") fresh)
  = mkResponse 1 "" "http://x" "https://s.example/myurls:lock:abc".
Proof.
  split; [|split; [|split]].
  - apply (invalid_input_refused sample_config (mkForm "" "abc" "6") fresh).
    reflexivity.
  - apply (invalid_input_refused sample_config
             (mkForm "aHR0cDovL3g=" "" "six") fresh);
      (discriminate || reflexivity).
  - apply (invalid_input_refused sample_config
             (mkForm "aHR0cDovL3g=" "" "21") fresh) with (n := 21);
      (discriminate || reflexivity || (right; reflexivity)).
  - destruct (invalid_input_refused sample_config
                (form_x_as "myurls:lock:abc") fresh) as (_ & _ & _ & Hkey).
    destruct (Hkey ltac:(discriminate) 6 eq_refl ltac:(discriminate))
      as (_ & Hok).
    apply Hok. left. reflexivity.
Defined.

Lemma undecodable_longUrl_served_witness :
  snd (Base64.DecodeString "!!!!") <> None /\
  fst (post_short sample_config (mkForm "!!!!" "" "") fresh)
  = mkResponse 1 "" "" "https://s.example/zsE9VQ" /\
  exists key,
    ShortUrl (fst (post_short sample_config (mkForm "!!!!" "" "") fresh))
    = short_url sample_config key /\
    fst (get_short key (snd (post_short sample_config (mkForm "!!!!" "" "") fresh)))
    = NotFound.
Proof.
  split; [discriminate|]. split; [vm_compute; reflexivity|].
  destruct (undecodable_longUrl_served sample_config (mkForm "!!!!" "" "")
              fresh 6 ltac:(discriminate) eq_refl)
    as (_ & _ & _ & _ & Hgen).
  destruct (Hgen eq_refl) as (_ & Hmiss).
  destruct (Hmiss ltac:(vm_compute; reflexivity)) as (key & Hurl & _ & Hnf).
  exists key. split; [exact Hurl | exact (Hnf eq_refl)].
Defined.

Lemma explicit_rewrite_drops_expiry_witness :
  Redis.ttl (fst issued) (db (snd issued)) = 864000 /\
  Redis.ttl (fst issued)
    (db (snd (post_short sample_config (form_x_as (fst issued)) (snd issued))))
  = -1 /\
  Redis.get (fst issued)
    (db (snd (post_short sample_config (form_x_as (fst issued)) (snd issued))))
  = Some "http://x".
Proof.
  destruct (explicit_rewrite_drops_expiry sample_config (form_x_as (fst issued))
              (snd issued) 6 (Redis.Entry "http://x" (Some 864000%positive))
              ltac:(discriminate) eq_refl ltac:(vm_compute; discriminate)
              ltac:(vm_compute; reflexivity) eq_refl)
    as (_ & Hrec & Httl & Hgen).
  split; [|split; [exact Httl|]].
  - apply (Hgen fresh 864000 6%nat);
      [reflexivity | vm_compute; reflexivity | exact (surjective_pairing issued)].
  - cbn [form_shortKey form_x_as] in Hrec.
    unfold Redis.get. rewrite Hrec. reflexivity.
Defined.

(** * Further properties *)

(** ** The page's encoding and the handler's decoding *)

Section Base64Facts.

Local Open Scope N_scope.

Lemma lor_disjoint a b n : a mod 2 ^ n = 0 -> b < 2 ^ n -> N.lor a b = a + b.
Proof.
  intros Ha Hb. rewrite <- N.lxor_lor, <- N.add_nocarry_lxor; try reflexivity.
  all: apply N.bits_inj; intros i; rewrite N.land_spec, N.bits_0;
    destruct (N.lt_ge_cases i n) as [Hi|Hi].
  all: try (rewrite <- (N.mod_pow2_bits_low a n i Hi), Ha, N.bits_0; reflexivity).
  all: rewrite <- (N.mod_small b (2 ^ n)) by assumption;
       rewrite N.mod_pow2_bits_high by assumption; apply andb_false_r.
Qed.

Ltac euclid := zify; Z.to_euclidean_division_equations; lia.

Lemma byte_lt c : N_of_ascii c < 256.
Proof. apply N_ascii_bounded. Qed.

Lemma group_value b0 b1 b2 :
  Page.group b0 b1 b2
  = N_of_ascii b0 * 65536 + N_of_ascii b1 * 256 + N_of_ascii b2.
Proof.
  unfold Page.group.
  pose proof (byte_lt b0). pose proof (byte_lt b1). pose proof (byte_lt b2).
  rewrite !N.shiftl_mul_pow2. change (2 ^ 16) with 65536. change (2 ^ 8) with 256.
  rewrite (lor_disjoint _ (N_of_ascii b1 * 256) 16).
  - rewrite (lor_disjoint _ (N_of_ascii b2) 8); [reflexivity | | assumption].
    change (2 ^ 8) with 256. euclid.
  - change (2 ^ 16) with 65536. euclid.
  - change (2 ^ 16) with 65536. lia.
Qed.

Lemma decodeMap_encode n :
  n < 64 -> Base64.decodeMap (Page.encode_char n) = Some n.
Proof.
  intros Hn. rewrite <- (N2Nat.id n).
  assert (Hi : (N.to_nat n < 64)%nat) by lia.
  unfold Page.encode_char. rewrite Nat2N.id.
  generalize dependent (N.to_nat n). clear n Hn. intros i Hi.
  do 64 (destruct i as [|i]; [reflexivity|]). lia.
Qed.

Lemma land_63 x : N.land x 63 = x mod 64.
Proof. change 63 with (N.ones 6). now rewrite N.land_ones. Qed.

Lemma land_255 x : N.land x 255 = x mod 256.
Proof. change 255 with (N.ones 8). now rewrite N.land_ones. Qed.

Lemma sextet_of_lt val k : Page.sextet_of val k < 64.
Proof. unfold Page.sextet_of. rewrite land_63. now apply N.mod_lt. Qed.

Lemma sextet_of_value val k : Page.sextet_of val k = (val / 2 ^ k) mod 64.
Proof. unfold Page.sextet_of. now rewrite land_63, N.shiftr_div_pow2. Qed.

(** Four sextets side by side. *)
Lemma assemble s0 s1 s2 s3 :
  s0 < 64 -> s1 < 64 -> s2 < 64 -> s3 < 64 ->
  N.lor (N.lor (N.shiftl s0 18) (N.shiftl s1 12)) (N.lor (N.shiftl s2 6) s3)
  = s0 * 262144 + s1 * 4096 + s2 * 64 + s3.
Proof.
  intros H0 H1 H2 H3. rewrite !N.shiftl_mul_pow2.
  change (2 ^ 18) with 262144. change (2 ^ 12) with 4096. change (2 ^ 6) with 64.
  rewrite (lor_disjoint (s2 * 64) s3 6);
    [| change (2 ^ 6) with 64; euclid | exact H3].
  rewrite (lor_disjoint (s0 * 262144) (s1 * 4096) 18);
    [| change (2 ^ 18) with 262144; euclid | change (2 ^ 18) with 262144; lia].
  rewrite (lor_disjoint _ (s2 * 64 + s3) 12);
    [lia | change (2 ^ 12) with 4096; euclid | change (2 ^ 12) with 4096; lia].
Qed.

(** Cutting 24 bits into sextets and into bytes. *)
Lemma regroup b0 b1 b2 :
  b0 < 256 -> b1 < 256 -> b2 < 256 ->
  let v := b0 * 65536 + b1 * 256 + b2 in
  let v' := (v / 262144) mod 64 * 262144 + (v / 4096) mod 64 * 4096
            + (v / 64) mod 64 * 64 + v mod 64 in
  (v' / 65536) mod 256 = b0 /\ (v' / 256) mod 256 = b1 /\ v' mod 256 = b2 /\
  (b2 = 0 -> v mod 64 = 0) /\ (b1 = 0 -> b2 = 0 -> (v / 64) mod 64 = 0).
Proof.
  intros H0 H1 H2 v v'. subst v' v. repeat split; intros; euclid.
Qed.

Lemma byte_back x c : x mod 256 = N_of_ascii c -> Base64.byte_of x = c.
Proof.
  intros E. unfold Base64.byte_of. now rewrite land_255, E, ascii_N_embedding.
Qed.

(** The bytes [decodeQuantum] makes of the sextets of a group; a sextet
    that padding replaced is zero on both sides. *)
Lemma quantum_value b0 b1 b2 s3' s2' :
  let val := Page.group b0 b1 b2 in
  (s3' = Page.sextet_of val 0 \/ s3' = 0 /\ b2 = zero) ->
  (s2' = Page.sextet_of val 6 \/ s2' = 0 /\ b1 = zero /\ b2 = zero) ->
  let val' :=
    N.lor (N.lor (N.shiftl (Page.sextet_of val 18) 18)
                 (N.shiftl (Page.sextet_of val 12) 12))
          (N.lor (N.shiftl s2' 6) s3') in
  Base64.byte_of (N.shiftr val' 16) = b0 /\
  Base64.byte_of (N.shiftr val' 8) = b1 /\
  Base64.byte_of val' = b2.
Proof.
  intros val H3 H2 val'.
  pose proof (byte_lt b0) as L0. pose proof (byte_lt b1) as L1.
  pose proof (byte_lt b2) as L2.
  destruct (regroup _ _ _ L0 L1 L2) as (R0 & R1 & R2 & Z3 & Z2).
  assert (E3 : s3' = Page.sextet_of val 0).
  { destruct H3 as [|[-> ->]]; [assumption|].
    rewrite sextet_of_value. subst val. rewrite group_value.
    change (2 ^ 0) with 1. rewrite N.div_1_r. symmetry. now apply Z3. }
  assert (E2 : s2' = Page.sextet_of val 6).
  { destruct H2 as [|(-> & -> & ->)]; [assumption|].
    rewrite sextet_of_value. subst val. rewrite group_value.
    change (2 ^ 6) with 64. symmetry. now apply Z2. }
  subst val'. rewrite E2, E3.
  rewrite assemble by apply sextet_of_lt.
  rewrite !sextet_of_value. subst val. rewrite group_value.
  change (2 ^ 18) with 262144. change (2 ^ 12) with 4096.
  change (2 ^ 6) with 64. change (2 ^ 0) with 1. rewrite N.div_1_r.
  rewrite !N.shiftr_div_pow2. change (2 ^ 16) with 65536. change (2 ^ 8) with 256.
  repeat split; now apply byte_back.
Qed.

Lemma decode_sextet val k rest dbuf out :
  Base64.decode (Page.sextet val k :: rest) dbuf out =
    if (length (dbuf ++ [Page.sextet_of val k]) =? 4)%nat
    then Base64.decode rest []
           (out ++ Base64.quantum_bytes (dbuf ++ [Page.sextet_of val k]))
    else Base64.decode rest (dbuf ++ [Page.sextet_of val k]) out.
Proof.
  cbn [Base64.decode]. unfold Page.sextet.
  rewrite decodeMap_encode by apply sextet_of_lt. reflexivity.
Qed.

Lemma list_ind3 {A} (P : list A -> Prop) :
  P [] -> (forall a, P [a]) -> (forall a b, P [a; b]) ->
  (forall a b c l, P l -> P (a :: b :: c :: l)) ->
  forall l, P l.
Proof.
  intros H0 H1 H2 H3 l.
  assert (Hn : forall n l, (length l <= n)%nat -> P l).
  { induction n as [|n IH]; intros [|a [|b [|c l']]] Hl; auto; simpl in Hl; try lia.
    apply H3, IH. lia. }
  now apply (Hn (length l)).
Qed.

Lemma roundtrip_bytes l : forall out,
  Base64.decode (Page.btoa_bytes l) [] out = (out ++ l, None).
Proof.
  induction l as [|b0|b0 b1|b0 b1 b2 l IH] using list_ind3; intros out.
  - simpl. now rewrite app_nil_r.
  - cbn [Page.btoa_bytes]. rewrite !decode_sextet. cbn [length app Nat.eqb].
    destruct (quantum_value b0 zero zero 0 0) as (Q0 & _); [right; auto ..|].
    cbn. unfold Base64.quantum_bytes. cbn [nth length Nat.sub firstn].
    now rewrite Q0.
  - cbn [Page.btoa_bytes]. rewrite !decode_sextet. cbn [length app Nat.eqb].
    destruct (quantum_value b0 b1 zero 0 (Page.sextet_of (Page.group b0 b1 zero) 6))
      as (Q0 & Q1 & _); [right; auto | left; auto |].
    cbn. unfold Base64.quantum_bytes. cbn [nth length Nat.sub firstn].
    now rewrite Q0, Q1.
  - cbn [Page.btoa_bytes]. rewrite !decode_sextet. cbn [length app Nat.eqb].
    rewrite IH.
    destruct (quantum_value b0 b1 b2 (Page.sextet_of (Page.group b0 b1 b2) 0)
                (Page.sextet_of (Page.group b0 b1 b2) 6))
      as (Q0 & Q1 & Q2); [left; auto | left; auto |].
    unfold Base64.quantum_bytes. cbn [nth length Nat.sub firstn].
    rewrite Q0, Q1, Q2. now rewrite <- app_assoc.
Qed.

Lemma btoa_bytes_length l :
  length (Page.btoa_bytes l) = (4 * ((length l + 2) / 3))%nat.
Proof.
  induction l as [|b0|b0 b1|b0 b1 b2 l IH] using list_ind3; try reflexivity.
  cbn [Page.btoa_bytes length]. rewrite IH.
  replace (S (S (S (length l))) + 2)%nat with (1 * 3 + (length l + 2))%nat by lia.
  rewrite Nat.div_add_l by lia. lia.
Qed.

Lemma string_length_list s : String.length s = length (list_ascii_of_string s).
Proof. induction s as [|c s IH]; simpl; [reflexivity | now rewrite IH]. Qed.

Lemma btoa_length s :
  String.length (Page.btoa s) = (4 * ((String.length s + 2) / 3))%nat.
Proof.
  unfold Page.btoa.
  now rewrite length_string_of_list, btoa_bytes_length, string_length_list.
Qed.

Lemma decode_btoa s : Base64.DecodeString (Page.btoa s) = (s, None).
Proof.
  unfold Base64.DecodeString, Page.btoa.
  rewrite list_ascii_of_string_of_list_ascii, roundtrip_bytes. simpl.
  now rewrite string_of_list_ascii_of_string.
Qed.

End Base64Facts.

(** X1. What [btoa] makes of a byte string, [DecodeString] turns back
    into that string, without error: whatever the length of the string,
    with or without padding, the handler reads the bytes the page
    encoded. *)
Theorem btoa_decode_roundtrip s :
  Base64.DecodeString (Page.btoa s) = (s, None) /\
  String.length (Page.btoa s) = (4 * ((String.length s + 2) / 3))%nat.
Proof.
  split; [apply decode_btoa|]. apply btoa_length.
Qed.

(** ** The engine beyond the claims *)

Section MoreEngineFacts.

Context `{Rand}.

Lemma get_in_string i s c :
  String.get i s = Some c -> In c (list_ascii_of_string s).
Proof.
  revert i. induction s as [|a s IH]; intros [|i]; simpl; try discriminate.
  - intros [= ->]. now left.
  - intros E. right. eauto.
Qed.

Lemma fill_well_formed bits r :
  forallb (fun c => existsb (Ascii.eqb c) (list_ascii_of_string letterBytes))
    (fill bits r) = true.
Proof.
  revert r. induction bits as [|bits IH]; intros r; [reflexivity|].
  cbn [fill forallb]. rewrite IH, andb_true_r. apply existsb_exists.
  exists (letter (fst (Intn r (String.length letterBytes)))). split.
  - eapply get_in_string, letter_alphabet, Intn_lt. simpl. lia.
  - apply Ascii.eqb_refl.
Qed.

Lemma lock_key_colon k :
  In ":"%char (list_ascii_of_string (defaultLockPrefix +:+ k)).
Proof. unfold defaultLockPrefix. simpl. tauto. Qed.

Lemma candidate_not_lock_key w i bits k :
  candidate w i bits <> defaultLockPrefix +:+ k.
Proof.
  intros E. pose proof (lock_key_colon k) as Hc. rewrite <- E in Hc.
  unfold candidate in Hc. rewrite list_ascii_of_string_of_list_ascii in Hc.
  now apply fill_no_colon in Hc.
Qed.

(** After a creation with a positive time to live the index entry of
    the long URL is there. *)
Lemma index_live_after_create url ttl len w :
  0 < ttl -> (1 <= len)%nat ->
  ~ unmapped (snd (longToShort url ttl len w)) (md5_key url).
Proof.
  intros Httl Hlen.
  destruct (decide (unmapped w (md5_key url))) as [Hmiss|Hhit].
  - destruct (longToShort_miss_parts url ttl len w Hmiss) as (_ & _ & Hdb).
    destruct (retry_3_candidate len w) as (i & _ & Hi).
    assert (Hne : fst (retry 3 len "" w) <> "")
      by (rewrite Hi; now apply candidate_nonempty).
    rewrite (Hdb Hne).
    erewrite reply_get
      by (apply stored_index; rewrite Hi; apply candidate_not_md5_key).
    exact Hne.
  - rewrite longToShort_hit by assumption. cbn [snd db with_db].
    destruct (reply_nonempty _ _ Hhit) as (e & He & Hv).
    set (k := Redis.reply_string (Redis.get (md5_key url) (db w))) in *.
    destruct (decide (k = md5_key url)) as [Ek|Nk].
    + rewrite Ek, (expire_positive _ _ _ e He Httl). cbn [snd].
      erewrite reply_get by apply lookup_insert_eq. cbn [Redis.value].
      congruence.
    + unfold Redis.get. rewrite expire_other by assumption.
      fold (Redis.get (md5_key url) (db w)). exact Hhit.
Qed.

(** The record and the lock after a resolution that renews. *)
Lemma resolve_renews k w e t :
  db w !! k = Some e -> Redis.value e <> "" ->
  db w !! (defaultLockPrefix +:+ k) = None ->
  Redis.expiry e = Some t ->
  Z.pos t + secondsPerDay <= GoInt.max_int ->
  db (snd (shortToLong k w)) !! k
  = Some (Redis.Entry (Redis.value e) (Some (Z.to_pos (Z.pos t + secondsPerDay)))) /\
  db (snd (shortToLong k w)) !! (defaultLockPrefix +:+ k)
  = Some (Redis.Entry "1" (Some (Z.to_pos secondsPerDay))).
Proof.
  intros Hrec Hval Hfree Ht Hmax.
  pose proof (lock_key_fresh k) as Hfresh.
  rewrite (shortToLong_found _ _ _ Hrec Hval). cbn [snd].
  rewrite (renew_acquired _ _ _ Hfree Hrec). cbv zeta. rewrite Ht.
  cbn [db with_db]. unfold GoInt.add.
  rewrite wrap_small
    by (unfold GoInt.min_int, GoInt.max_int, secondsPerDay in *; lia).
  rewrite (expire_positive _ _ _ e)
    by (rewrite ?lookup_insert_ne by assumption;
        assumption || (unfold secondsPerDay; lia)).
  cbn [snd]. split.
  - apply lookup_insert_eq.
  - rewrite lookup_insert_ne by congruence. apply lookup_insert_eq.
Qed.

(** X2. On a dedup-index miss with a length from 1 to 20 the key that
    [longToShort] returns is a short key of the data model: of the
    length asked for and over the letters of [letterBytes]. *)
Theorem generated_key_well_formed url ttl len w :
  unmapped w (md5_key url) -> (1 <= len <= 20)%nat ->
  String.length (fst (longToShort url ttl len w)) = len /\
  spec_well_formed_key (fst (longToShort url ttl len w)) = true.
Proof.
  intros Hmiss Hlen.
  destruct (longToShort_miss_parts url ttl len w Hmiss) as (-> & _).
  destruct (retry_3_candidate len w) as (i & _ & ->).
  split; [apply candidate_length|].
  unfold spec_well_formed_key. rewrite candidate_length.
  unfold candidate. rewrite list_ascii_of_string_of_list_ascii, fill_well_formed.
  destruct (Nat.leb_spec 1 len), (Nat.leb_spec len 20); simpl; (reflexivity || lia).
Qed.

(** X3. The POST handler answers with code 0 or 1.  With code 0 the
    world is as it was, there is no short URL and there is a message;
    with code 1 there is no message, the long URL is the decoded field
    and the short URL is protocol, domain, a slash and a key. *)
Theorem post_short_answers cfg form w :
  let r := post_short cfg form w in
  (Code (fst r) = 0 \/ Code (fst r) = 1) /\
  (Code (fst r) = 0 ->
     snd r = w /\ ShortUrl (fst r) = "" /\ Message (fst r) <> "") /\
  (Code (fst r) = 1 ->
     Message (fst r) = "" /\
     LongUrl (fst r) = fst (Base64.DecodeString (form_longUrl form)) /\
     exists key, ShortUrl (fst r) = short_url cfg key).
Proof.
  intros r.
  destruct (decide (form_longUrl form = "")) as [Hurl|Hurl].
  { assert (Hr : r = (mkResponse 0 msg_longUrl_empty "" "", w)).
    { subst r. unfold post_short.
      destruct (decide _); [reflexivity | contradiction]. }
    rewrite Hr. cbn. split; [now left|]. split; [|discriminate].
    intros _. repeat split. discriminate. }
  destruct (read_shortUrlLen (form_shortUrlLen form)) as [msg|n] eqn:Hlen.
  { assert (Hr : r = (mkResponse 0 msg "" "", w)).
    { subst r. unfold post_short. rewrite Hlen.
      destruct (decide _); [contradiction | reflexivity]. }
    rewrite Hr. cbn. split; [now left|]. split; [|discriminate].
    intros _. repeat split. revert Hlen. unfold read_shortUrlLen.
    destruct (decide _); [|discriminate].
    destruct (Strconv.Atoi _); [|intros [= <-]; discriminate].
    destruct (_ && _); [discriminate | intros [= <-]; discriminate]. }
  destruct (decide (form_shortKey form = "")) as [Hkey|Hkey].
  - subst r. rewrite (post_short_generated cfg form w n) by assumption.
    cbn. split; [now right|]. split; [discriminate|].
    intros _. repeat split. eauto.
  - subst r. rewrite (post_short_explicit cfg form w n) by assumption.
    cbv zeta. destruct (decide _); cbn.
    + split; [now left|]. split; [|discriminate].
      intros _. repeat split. discriminate.
    + split; [now right|]. split; [discriminate|].
      intros _. repeat split. eauto.
Qed.

(** X4. [longToShort] writes nowhere but under the key it returns and
    under the dedup index key of its long URL, and leaves the clock
    function alone. *)
Theorem longToShort_frame url ttl len w j :
  let r := longToShort url ttl len w in
  j <> fst r -> j <> md5_key url ->
  db (snd r) !! j = db w !! j /\ clock (snd r) = clock w.
Proof.
  intros r. subst r.
  destruct (decide (unmapped w (md5_key url))) as [Hmiss|Hhit].
  - rewrite longToShort_miss by assumption. cbv zeta.
    destruct (retry_3_world len w) as (Hdb & Hclock & _).
    destruct (decide _); cbn [fst snd db clock with_db]; intros Hj Hm.
    + rewrite stored_other, Hdb by assumption. auto.
    + rewrite Hdb. auto.
  - rewrite longToShort_hit by assumption. cbn [fst snd db clock with_db].
    intros Hj Hm. rewrite expire_other by congruence. auto.
Qed.

(** The two records after a creation that missed the index. *)
Lemma miss_records url ttl len w :
  unmapped w (md5_key url) -> (1 <= len)%nat ->
  let r := longToShort url ttl len w in
  db (snd r) !! md5_key url
  = Some (Redis.Entry (fst r) (Some (Z.to_pos secondsPerDay))) /\
  (0 < ttl ->
     db (snd r) !! fst r = Some (Redis.Entry url (Some (Z.to_pos ttl)))) /\
  (ttl <= 0 -> db (snd r) !! fst r = None).
Proof.
  intros Hmiss Hlen r.
  destruct (longToShort_miss_parts url ttl len w Hmiss) as (Hkey & _ & Hdb).
  fold r in Hkey, Hdb.
  destruct (retry_3_candidate len w) as (i & _ & Hi).
  rewrite <- Hkey in Hi, Hdb.
  assert (Hne : fst r <> "") by (rewrite Hi; now apply candidate_nonempty).
  assert (Hmd : fst r <> md5_key url)
    by (rewrite Hi; apply candidate_not_md5_key).
  rewrite (Hdb Hne). split; [now apply stored_index|]. split.
  - intros Httl. now apply stored_short.
  - intros Httl. now apply stored_short_gone.
Qed.

(** X5. On a dedup-index miss with a length of at least one, the index
    entry names the returned key and lives one day, whatever the time to
    live asked for; the record holds the long URL for that time when it
    is positive, and is gone at once, the key resolving to not-found,
    when it is not. *)
Theorem miss_writes_both_records url ttl len w :
  unmapped w (md5_key url) -> (1 <= len)%nat ->
  let r := longToShort url ttl len w in
  db (snd r) !! md5_key url
  = Some (Redis.Entry (fst r) (Some (Z.to_pos secondsPerDay))) /\
  (0 < ttl ->
     db (snd r) !! fst r = Some (Redis.Entry url (Some (Z.to_pos ttl)))) /\
  (ttl <= 0 ->
     db (snd r) !! fst r = None /\ fst (get_short (fst r) (snd r)) = NotFound).
Proof.
  intros Hmiss Hlen r.
  destruct (miss_records url ttl len w Hmiss Hlen) as (Hidx & Hrec & Hgone).
  fold r in Hidx, Hrec, Hgone.
  split; [assumption|]. split; [assumption|].
  intros Httl. split; [auto|]. rewrite get_short_fst.
  rewrite (reply_get_missing _ _ (Hgone Httl)).
  destruct (decide _); [reflexivity | contradiction].
Qed.

(** X6. Resolving a key that is not mapped, or one whose record has
    outlived its time to live, answers not-found and leaves the world as
    it is: no renewal lock is made for it. *)
Theorem resolve_missing_or_expired k w :
  (unmapped w k ->
     shortToLong k w = ("", w) /\ get_short k w = (NotFound, w)) /\
  (forall e t d,
     db w !! k = Some e -> Redis.expiry e = Some t -> Z.pos t <= d ->
     get_short k (wait d w) = (NotFound, wait d w)).
Proof.
  assert (Hnone : forall w', unmapped w' k ->
            shortToLong k w' = ("", w') /\ get_short k w' = (NotFound, w')).
  { intros w' Hun.
    assert (Hs : shortToLong k w' = ("", w')).
    { unfold shortToLong, bind, Do_get, ret. cbn [fst snd]. rewrite Hun.
      destruct (decide _); [contradiction | reflexivity]. }
    split; [assumption|]. unfold get_short, bind. rewrite Hs. cbn [fst snd].
    destruct (decide _); [reflexivity | contradiction]. }
  split; [apply Hnone|].
  intros e t d He Ht Hd. apply Hnone. cbn [db wait with_db].
  apply reply_get_missing. rewrite elapse_lookup, He. cbn.
  unfold Redis.age. rewrite Ht.
  destruct (Z.leb_spec (Z.pos t) d); [reflexivity | lia].
Qed.

(** X7. A resolution changes no value and removes no key: apart from
    the renewal lock of the key, every GET answers after it what it
    answered before, so resolving again returns the same long URL; and
    the time to live of the key does not go down.  (The sum of a time to
    live and a day is taken to fit an [int].) *)
Theorem resolve_keeps_values k w :
  (forall e t, db w !! k = Some e -> Redis.expiry e = Some t ->
               Z.pos t + secondsPerDay <= GoInt.max_int) ->
  let r := shortToLong k w in
  (forall j, j <> defaultLockPrefix +:+ k ->
             Redis.get j (db (snd r)) = Redis.get j (db w)) /\
  fst (shortToLong k (snd r)) = fst r /\
  Redis.ttl k (db w) <= Redis.ttl k (db (snd r)).
Proof.
  intros Hmax r.
  pose proof (lock_key_fresh k) as Hfresh.
  assert (Hsame : snd r = w ->
            (forall j, j <> defaultLockPrefix +:+ k ->
                       Redis.get j (db (snd r)) = Redis.get j (db w)) /\
            Redis.ttl k (db w) <= Redis.ttl k (db (snd r)))
    by (intros ->; split; [reflexivity | lia]).
  assert (Hmain :
            (forall j, j <> defaultLockPrefix +:+ k ->
                       Redis.get j (db (snd r)) = Redis.get j (db w)) /\
            Redis.ttl k (db w) <= Redis.ttl k (db (snd r))).
  { destruct (decide (unmapped w k)) as [Hun|Hfound].
    { apply Hsame. subst r.
      unfold shortToLong, bind, Do_get, ret. cbn [fst snd]. rewrite Hun.
      destruct (decide _); [contradiction | reflexivity]. }
    destruct (reply_nonempty _ _ Hfound) as (e & He & Hv).
    assert (Hval : Redis.value e <> "") by congruence.
    destruct (db w !! (defaultLockPrefix +:+ k)) as [l|] eqn:Hlock.
    { apply Hsame. subst r. apply shortToLong_held. congruence. }
    subst r. rewrite (shortToLong_found _ _ _ He Hval). cbn [snd].
    rewrite (renew_acquired _ _ _ Hlock He). cbv zeta. cbn [db with_db].
    destruct (Redis.expiry e) as [t|] eqn:Ht.
    - specialize (Hmax e t He Ht).
      unfold GoInt.add. rewrite wrap_small
        by (unfold GoInt.min_int, GoInt.max_int, secondsPerDay in *; lia).
      rewrite (expire_positive _ _ _ e)
        by (rewrite ?lookup_insert_ne by assumption;
            assumption || (unfold secondsPerDay; lia)).
      cbn [snd]. split.
      + intros j Hj. unfold Redis.get.
        destruct (decide (j = k)) as [->|Hjk].
        * rewrite lookup_insert_eq, He. reflexivity.
        * now rewrite !lookup_insert_ne by congruence.
      + unfold Redis.ttl. rewrite lookup_insert_eq, He, Ht. cbn [Redis.expiry].
        rewrite Z2Pos.id; unfold secondsPerDay; lia.
    - split.
      + intros j Hj. unfold Redis.get. now rewrite lookup_insert_ne by congruence.
      + unfold Redis.ttl. rewrite lookup_insert_ne by assumption. lia. }
  destruct Hmain as (Hget & Httl). split; [assumption|]. split; [|assumption].
  rewrite shortToLong_fst. subst r. rewrite shortToLong_fst.
  f_equal. apply Hget. congruence.
Qed.

(** X8. Once a day has gone by since a renewing resolution, and the
    record is still alive, the lock has lapsed and the next resolution
    renews again: the time to live becomes the original plus two days,
    less the time gone by, and a new lock lives one day. *)
Theorem renewal_window_reopens k w e t d :
  db w !! k = Some e -> Redis.value e <> "" ->
  db w !! (defaultLockPrefix +:+ k) = None ->
  Redis.expiry e = Some t ->
  Z.pos t + 2 * secondsPerDay <= GoInt.max_int ->
  secondsPerDay <= d < Z.pos t + secondsPerDay ->
  let w1 := snd (shortToLong k w) in
  let w2 := wait d w1 in
  let w3 := snd (shortToLong k w2) in
  db w2 !! (defaultLockPrefix +:+ k) = None /\
  Redis.ttl k (db w2) = Z.pos t + secondsPerDay - d /\
  Redis.ttl k (db w3) = Z.pos t + 2 * secondsPerDay - d /\
  Redis.ttl (defaultLockPrefix +:+ k) (db w3) = secondsPerDay.
Proof.
  intros He Hval Hfree Ht Hmax Hd w1 w2 w3.
  assert (Hday : 0 < secondsPerDay) by (unfold secondsPerDay; lia).
  destruct (resolve_renews k w e t He Hval Hfree Ht ltac:(lia)) as (Hk1 & Hl1).
  fold w1 in Hk1, Hl1.
  assert (Hl2 : db w2 !! (defaultLockPrefix +:+ k) = None).
  { subst w2. cbn [db wait with_db]. rewrite elapse_lookup, Hl1. cbn.
    unfold Redis.age. cbn [Redis.expiry]. rewrite Z2Pos.id by assumption.
    destruct (Z.leb_spec secondsPerDay d); [reflexivity | lia]. }
  assert (Hk2 : db w2 !! k
                = Some (Redis.Entry (Redis.value e)
                          (Some (Z.to_pos (Z.pos t + secondsPerDay - d))))).
  { subst w2. cbn [db wait with_db].
    rewrite (elapse_ttl _ _ _ _ _ Hk1 eq_refl) by (rewrite Z2Pos.id; lia).
    cbn [Redis.value]. rewrite Z2Pos.id by lia. reflexivity. }
  destruct (resolve_renews k w2 _ _ Hk2 Hval Hl2 eq_refl) as (Hk3 & Hl3).
  { rewrite Z2Pos.id by lia. lia. }
  fold w3 in Hk3, Hl3. split; [assumption|].
  unfold Redis.ttl. rewrite Hk2, Hk3, Hl3. cbn [Redis.expiry].
  rewrite !Z2Pos.id by lia. repeat split; lia.
Qed.

(** X9. After an explicit-key creation that succeeded with a long URL
    that is not empty, the same request again gets the same answer and
    changes nothing, and every request for that key with another long
    URL is refused as a conflict and changes nothing. *)
Theorem explicit_create_idempotent_then_guarded cfg form w n :
  form_longUrl form <> "" ->
  read_shortUrlLen (form_shortUrlLen form) = inr n ->
  form_shortKey form <> "" ->
  fst (Base64.DecodeString (form_longUrl form)) <> "" ->
  Code (fst (post_short cfg form w)) = 1 ->
  let r1 := post_short cfg form w in
  post_short cfg form (snd r1) = r1 /\
  (forall other m,
     form_longUrl other <> "" ->
     read_shortUrlLen (form_shortUrlLen other) = inr m ->
     form_shortKey other = form_shortKey form ->
     fst (Base64.DecodeString (form_longUrl other))
     <> fst (Base64.DecodeString (form_longUrl form)) ->
     post_short cfg other (snd r1)
     = (mkResponse 0 msg_key_exists
          (fst (Base64.DecodeString (form_longUrl other))) "", snd r1)).
Proof.
  intros Hurl Hlen Hkey Hne Hok r1.
  set (u := fst (Base64.DecodeString (form_longUrl form))) in *.
  assert (Hr1 : r1 = (mkResponse 1 "" u (short_url cfg (form_shortKey form)),
                      with_db (Redis.set (form_shortKey form) u (db w)) w)).
  { subst r1. revert Hok.
    rewrite (post_short_explicit cfg form w n) by assumption. cbv zeta.
    fold u. destruct (decide _); [discriminate | reflexivity]. }
  assert (Hcur : Redis.reply_string
                   (Redis.get (form_shortKey form) (db (snd r1))) = u).
  { rewrite Hr1. cbn [snd db with_db]. unfold Redis.set.
    erewrite reply_get by apply lookup_insert_eq. reflexivity. }
  split.
  - rewrite (post_short_explicit cfg form (snd r1) n) by assumption.
    cbv zeta. fold u. rewrite Hcur.
    destruct (decide _) as [[_ Hb]|_]; [contradiction|].
    rewrite Hr1. cbn [snd db with_db]. unfold Redis.set.
    now rewrite insert_insert_eq.
  - intros other m Ho Hm Hsame Hdiff.
    rewrite (post_short_explicit cfg other (snd r1) m)
      by (assumption || congruence).
    cbv zeta. rewrite Hsame, Hcur.
    destruct (decide _) as [_|Hn]; [reflexivity|].
    exfalso. apply Hn. split; congruence.
Qed.

(** X10. The index entry lapses after a day while a record kept for
    longer lives on: a creation for the same long URL then misses the
    index and generates again, and afterwards the long URL is reachable
    under the old key and under the new one, which the index now
    names. *)
Theorem index_lapse_duplicates url ttl1 ttl2 len1 len2 d w :
  unmapped w (md5_key url) -> (1 <= len1)%nat -> (1 <= len2)%nat ->
  secondsPerDay <= d < ttl1 -> 0 < ttl2 ->
  let first := longToShort url ttl1 len1 w in
  let w' := wait d (snd first) in
  let second := longToShort url ttl2 len2 w' in
  unmapped w' (md5_key url) /\
  Redis.get (fst first) (db w') = Some url /\
  Redis.get (fst first) (db (snd second)) = Some url /\
  Redis.get (fst second) (db (snd second)) = Some url /\
  Redis.get (md5_key url) (db (snd second)) = Some (fst second).
Proof.
  intros Hmiss Hl1 Hl2 Hd Httl2 first w' second.
  assert (Hday : 0 < secondsPerDay) by (unfold secondsPerDay; lia).
  destruct (longToShort_miss_parts url ttl1 len1 w Hmiss) as (Hk1 & _ & Hdb1).
  fold first in Hk1, Hdb1.
  destruct (retry_3_candidate len1 w) as (i1 & _ & Hi1).
  rewrite <- Hk1 in Hi1, Hdb1.
  assert (Hne1 : fst first <> "") by (rewrite Hi1; now apply candidate_nonempty).
  assert (Hmd1 : fst first <> md5_key url)
    by (rewrite Hi1; apply candidate_not_md5_key).
  specialize (Hdb1 Hne1).
  assert (Hmiss' : unmapped w' (md5_key url)).
  { subst w'. cbn [db wait with_db]. apply reply_get_missing.
    rewrite elapse_lookup, Hdb1, stored_index by assumption. cbn.
    unfold Redis.age. cbn [Redis.expiry]. rewrite Z2Pos.id by assumption.
    destruct (Z.leb_spec secondsPerDay d); [reflexivity | lia]. }
  assert (Hold : db w' !! fst first
                 = Some (Redis.Entry url (Some (Z.to_pos (ttl1 - d))))).
  { subst w'. cbn [db wait with_db].
    rewrite (elapse_ttl _ _ _ (Redis.Entry url (Some (Z.to_pos ttl1)))
               (Z.to_pos ttl1));
      [ cbn [Redis.value]; rewrite Z2Pos.id by lia; reflexivity
      | rewrite Hdb1; apply stored_short; [assumption | lia]
      | reflexivity
      | rewrite Z2Pos.id; lia ]. }
  destruct (longToShort_miss_parts url ttl2 len2 w' Hmiss') as (Hk2 & _ & Hdb2).
  fold second in Hk2, Hdb2.
  destruct (retry_3_candidate len2 w') as (i2 & _ & Hi2).
  rewrite <- Hk2 in Hi2, Hdb2.
  assert (Hne2 : fst second <> "") by (rewrite Hi2; now apply candidate_nonempty).
  assert (Hmd2 : fst second <> md5_key url)
    by (rewrite Hi2; apply candidate_not_md5_key).
  specialize (Hdb2 Hne2).
  split; [assumption|]. unfold Redis.get. rewrite Hold, Hdb2.
  rewrite stored_short, stored_index by assumption.
  repeat split.
  destruct (decide (fst first = fst second)) as [E|N].
  - rewrite E, stored_short by assumption. reflexivity.
  - rewrite stored_other, Hold by assumption. reflexivity.
Qed.

(** X11. The prefixes keep the kinds of key apart: what [generate]
    returns is neither a dedup index key nor a renewal lock key, an
    index key is no lock key, the lock key of a key is not that key, and
    different keys have different lock keys. *)
Theorem namespaces_apart bits w url k k' :
  fst (generate bits w) <> md5_key url /\
  fst (generate bits w) <> defaultLockPrefix +:+ k /\
  md5_key url <> defaultLockPrefix +:+ k /\
  defaultLockPrefix +:+ k <> k /\
  (defaultLockPrefix +:+ k = defaultLockPrefix +:+ k' -> k = k').
Proof.
  rewrite generate_eq. cbn [fst].
  split; [apply candidate_not_md5_key|].
  split; [apply candidate_not_lock_key|].
  split; [|split; [apply lock_key_fresh|]].
  - unfold md5_key, defaultMd5Prefix, defaultLockPrefix.
    generalize (Hex.EncodeToString (MD5.Sum url)). intros h. simpl.
    discriminate.
  - unfold defaultLockPrefix. simpl. intros [= E]. exact E.
Qed.

(** X12. A request without explicit key that misses the dedup index is
    answered with a key of the length the form asks for, a number from
    1 to 20, and of length 6 when the form asks for none. *)
Theorem requested_length_honoured cfg form w n :
  form_longUrl form <> "" -> form_shortKey form = "" ->
  read_shortUrlLen (form_shortUrlLen form) = inr n ->
  unmapped w (md5_key (fst (Base64.DecodeString (form_longUrl form)))) ->
  exists key,
    ShortUrl (fst (post_short cfg form w)) = short_url cfg key /\
    Z.of_nat (String.length key) = n /\ 1 <= n <= 20 /\
    (form_shortUrlLen form = "" -> n = 6) /\
    (form_shortUrlLen form <> "" -> Strconv.Atoi (form_shortUrlLen form) = Some n).
Proof.
  intros Hurl Hkey Hlen Hmiss.
  pose proof (read_shortUrlLen_range _ _ Hlen) as Hn.
  unfold minShortUrlLen, maxShortUrlLen in Hn.
  rewrite (post_short_generated cfg form w n) by assumption. cbv zeta.
  cbn [fst ShortUrl]. eexists. split; [reflexivity|].
  destruct (longToShort_miss_parts _
              (GoInt.mul (flag_ttl cfg) secondsPerDay) (Z.to_nat n) w Hmiss)
    as (-> & _).
  destruct (retry_3_candidate (Z.to_nat n) w) as (i & _ & ->).
  rewrite candidate_length. split; [lia|]. split; [assumption|].
  revert Hlen. unfold read_shortUrlLen. destruct (decide _) as [Hs|Hs].
  - destruct (Strconv.Atoi _) as [m|]; [|discriminate].
    destruct (_ && _); [|discriminate]. intros [= <-].
    split; [contradiction | reflexivity].
  - intros [= <-]. split; [reflexivity | contradiction].
Qed.

(** A record without expiration comes through a resolution as it is. *)
Lemma resolve_persistent k w e :
  db w !! k = Some e -> Redis.expiry e = None ->
  db (snd (shortToLong k w)) !! k = Some e.
Proof.
  intros He Hexp. pose proof (lock_key_fresh k) as Hfresh.
  destruct (decide (Redis.value e = "")) as [Hv|Hv].
  - unfold shortToLong, bind, Do_get, ret. cbn [fst snd].
    rewrite (reply_get _ _ _ He).
    destruct (decide _); [contradiction | assumption].
  - destruct (db w !! (defaultLockPrefix +:+ k)) as [l|] eqn:Hlock.
    + rewrite shortToLong_held by congruence. assumption.
    + rewrite (shortToLong_found _ _ _ He Hv). cbn [snd].
      rewrite (renew_acquired _ _ _ Hlock He). cbv zeta. rewrite Hexp.
      cbn [db with_db]. now rewrite lookup_insert_ne.
Qed.

Lemma resolve_again_persistent k e delays : forall w,
  db w !! k = Some e -> Redis.expiry e = None ->
  db (resolve_again k delays w) !! k = Some e.
Proof.
  induction delays as [|d delays IH]; intros w He Hexp; [assumption|].
  change (resolve_again k (d :: delays) w)
    with (resolve_again k delays (snd (shortToLong k (wait d w)))).
  apply IH; [|assumption]. apply resolve_persistent; [|assumption].
  cbn [db wait with_db]. now apply elapse_persistent.
Qed.

(** X18. A link made with an explicit key and a long URL that is not
    empty does not expire: whatever time goes by and however often it is
    resolved in between, the record stays without time to live and the
    key redirects to the long URL. *)
Theorem explicit_link_is_permanent cfg form w n delays :
  form_longUrl form <> "" ->
  read_shortUrlLen (form_shortUrlLen form) = inr n ->
  form_shortKey form <> "" ->
  fst (Base64.DecodeString (form_longUrl form)) <> "" ->
  Code (fst (post_short cfg form w)) = 1 ->
  let w' := resolve_again (form_shortKey form) delays
              (snd (post_short cfg form w)) in
  Redis.ttl (form_shortKey form) (db w') = -1 /\
  fst (get_short (form_shortKey form) w')
  = MovedPermanently (fst (Base64.DecodeString (form_longUrl form))).
Proof.
  intros Hurl Hlen Hkey Hne Hok w'.
  set (u := fst (Base64.DecodeString (form_longUrl form))) in *.
  assert (Hrec : db (snd (post_short cfg form w)) !! form_shortKey form
                 = Some (Redis.Entry u None)).
  { revert Hok. rewrite (post_short_explicit cfg form w n) by assumption.
    cbv zeta. fold u. destruct (decide _); [discriminate|]. intros _.
    cbn [snd db with_db]. apply lookup_insert_eq. }
  pose proof (resolve_again_persistent _ _ delays _ Hrec eq_refl) as Hw.
  fold w' in Hw. unfold Redis.ttl. rewrite Hw. split; [reflexivity|].
  rewrite get_short_fst, (reply_get _ _ _ Hw). cbn [Redis.value].
  destruct (decide _); [contradiction | reflexivity].
Qed.

End MoreEngineFacts.

(** ** The page and the handler together *)

Section PageFacts.

Context `{Rand}.

Lemma btoa_nonempty s : s <> "" -> Page.btoa s <> "".
Proof.
  intros Hs E. apply Hs. unfold Page.btoa in E.
  rewrite <- (string_of_list_ascii_of_string s).
  destruct (list_ascii_of_string s) as [|a [|b [|c l]]];
    [reflexivity | discriminate ..].
Qed.

Lemma short_url_has_http cfg key :
  Page.occurs (list_ascii_of_string "http")
    (list_ascii_of_string (short_url cfg key)) = true /\
  short_url cfg key <> "".
Proof.
  unfold short_url. destruct (decide _); simpl; split; (reflexivity || discriminate).
Qed.

Lemma doShort_form longUrl box form :
  Page.doShort longUrl box = Some form ->
  longUrl <> "" /\
  form_longUrl form = Page.btoa longUrl /\
  form_shortUrlLen form = "" /\
  (form_shortKey form = "" \/ form_shortKey form = box).
Proof.
  unfold Page.doShort.
  destruct (Page.exec (list_ascii_of_string longUrl)) eqn:E; [|discriminate].
  intros [= <-]. cbn. split.
  - intros ->. discriminate.
  - repeat split. destruct (Page.occurs _ _); auto.
Qed.

(** X13. Whatever the page posts is served: the field it sends is not
    empty and decodes, without error, to the long URL that was typed;
    the handler answers with that long URL, never with an invalid-input
    message, and with success when no key is sent. *)
Theorem page_request_served cfg longUrl box form w :
  Page.doShort longUrl box = Some form ->
  let r := post_short cfg form w in
  form_longUrl form <> "" /\
  Base64.DecodeString (form_longUrl form) = (longUrl, None) /\
  LongUrl (fst r) = longUrl /\
  (Code (fst r) = 1 \/
   form_shortKey form = box /\ box <> "" /\
   fst r = mkResponse 0 msg_key_exists longUrl "") /\
  (form_shortKey form = "" -> Code (fst r) = 1).
Proof.
  intros Hdo r.
  destruct (doShort_form _ _ _ Hdo) as (Hne & Hfield & Hlen & Hkey).
  assert (Hf : form_longUrl form <> "")
    by (rewrite Hfield; now apply btoa_nonempty).
  assert (Hdec : Base64.DecodeString (form_longUrl form) = (longUrl, None))
    by (rewrite Hfield; apply decode_btoa).
  assert (Hn : read_shortUrlLen (form_shortUrlLen form) = inr 6)
    by (rewrite Hlen; reflexivity).
  split; [assumption|]. split; [assumption|].
  destruct (decide (form_shortKey form = "")) as [Hk|Hk].
  - subst r. rewrite (post_short_generated cfg form w 6) by assumption.
    cbv zeta. rewrite Hdec. cbn. auto.
  - destruct Hkey as [|Hbox]; [contradiction|].
    subst r. rewrite (post_short_explicit cfg form w 6) by assumption.
    cbv zeta. rewrite Hdec. cbn [fst].
    destruct (decide _); cbn.
    + split; [reflexivity|]. split; [|intros; contradiction].
      right. repeat split; congruence.
    + split; [reflexivity|]. split; [now left | reflexivity].
Qed.

(** X14. Sending the same long URL from the page twice in a row gives
    the same answer twice: after a success without key the short-URL box
    holds the short URL, which contains [http], so no key is sent the
    second time either, and the creation hits the index entry of the
    first.  (The time to live of the configuration is positive.) *)
Theorem page_resubmission_same_answer cfg longUrl box form w :
  0 < GoInt.mul (flag_ttl cfg) secondsPerDay ->
  Page.doShort longUrl box = Some form -> form_shortKey form = "" ->
  let r1 := post_short cfg form w in
  Page.received box (fst r1) = ShortUrl (fst r1) /\
  exists form2,
    Page.doShort longUrl (Page.received box (fst r1)) = Some form2 /\
    form_shortKey form2 = "" /\
    fst (post_short cfg form2 (snd r1)) = fst r1.
Proof.
  intros Httl Hdo Hk r1.
  destruct (doShort_form _ _ _ Hdo) as (Hne & Hfield & Hlen & _).
  assert (Hf : form_longUrl form <> "")
    by (rewrite Hfield; now apply btoa_nonempty).
  assert (Hdec : Base64.DecodeString (form_longUrl form) = (longUrl, None))
    by (rewrite Hfield; apply decode_btoa).
  assert (Hn : read_shortUrlLen (form_shortUrlLen form) = inr 6)
    by (rewrite Hlen; reflexivity).
  set (ttl := GoInt.mul (flag_ttl cfg) secondsPerDay) in *.
  set (c := longToShort longUrl ttl 6 w).
  assert (Hr1 : r1 = (mkResponse 1 "" longUrl (short_url cfg (fst c)), snd c)).
  { subst r1. rewrite (post_short_generated cfg form w 6) by assumption.
    cbv zeta. now rewrite Hdec. }
  destruct (short_url_has_http cfg (fst c)) as (Hhttp & Hsu).
  assert (Hrec : Page.received box (fst r1) = short_url cfg (fst c)).
  { rewrite Hr1. unfold Page.received. cbn [fst Code ShortUrl].
    destruct (decide _) as [_|Hn']; [reflexivity|]. exfalso. apply Hn'. auto. }
  split; [rewrite Hrec, Hr1; reflexivity|].
  set (form2 := {| form_longUrl := Page.btoa longUrl; form_shortKey := "";
                   form_shortUrlLen := "" |}).
  exists form2.
  assert (Hdo2 : Page.doShort longUrl (short_url cfg (fst c)) = Some form2).
  { revert Hdo. unfold Page.doShort.
    destruct (Page.exec _); [|discriminate]. intros _. now rewrite Hhttp. }
  rewrite Hrec. split; [assumption|]. split; [reflexivity|].
  assert (Hf2 : form_longUrl form2 <> "") by (now apply btoa_nonempty).
  rewrite (post_short_generated cfg form2 (snd r1) 6);
    [| assumption | reflexivity | reflexivity].
  cbv zeta. cbn [form_longUrl form2]. rewrite decode_btoa. cbn [fst].
  rewrite Hr1. cbn [fst snd]. fold ttl. do 2 f_equal.
  pose proof (index_live_after_create longUrl ttl 6 w Httl ltac:(lia)) as Hlive.
  fold c in Hlive.
  rewrite longToShort_hit by assumption. cbn [fst].
  apply (index_after_create longUrl ttl 6 w). assumption.
Qed.

Lemma starts_with_app p l :
  Page.starts_with p l = true <-> exists r, l = p ++ r.
Proof.
  revert l. induction p as [|a p IH]; intros l; simpl.
  - split; eauto.
  - destruct l as [|b l]; [split; [discriminate | intros (r & [=])]|].
    rewrite andb_true_iff, Ascii.eqb_eq, IH. split.
    + intros (-> & r & ->). eauto.
    + intros (r & [= -> ->]). eauto.
Qed.

Lemma skip_s_split r : exists k, r = repeat "s"%char k ++ Page.skip_s r.
Proof.
  induction r as [|c r (k & IH)]; [now exists 0%nat|]. simpl.
  destruct (Ascii.eqb_spec c "s"%char) as [->|_].
  - exists (S k). simpl. now rewrite <- IH.
  - now exists 0%nat.
Qed.

Lemma skip_s_repeat k post :
  Page.skip_s (repeat "s"%char k ++ list_ascii_of_string "://" ++ post)
  = list_ascii_of_string "://" ++ post.
Proof. induction k as [|k IH]; [reflexivity | simpl; exact IH]. Qed.

Lemma match_at_spec l :
  Page.match_at l = true <->
  exists k post,
    l = list_ascii_of_string "http" ++ repeat "s"%char k
        ++ list_ascii_of_string "://" ++ post.
Proof.
  unfold Page.match_at. rewrite andb_true_iff, !starts_with_app. split.
  - intros ((r & ->) & post & Hpost). simpl in Hpost.
    change (skipn 0 r) with r in Hpost.
    destruct (skip_s_split r) as (k & Hk). exists k, post.
    cbn [list_ascii_of_string app]. do 4 f_equal.
    rewrite Hk at 1. now rewrite Hpost.
  - intros (k & post & ->). split; [eauto|].
    exists post. simpl.
    change (skipn 0 (repeat "s"%char k ++ ":"%char :: "/"%char :: "/"%char :: post))
      with (repeat "s"%char k ++ list_ascii_of_string "://" ++ post).
    apply skip_s_repeat.
Qed.

Lemma exec_spec l :
  Page.exec l = true <->
  exists pre k post,
    l = pre ++ list_ascii_of_string "http" ++ repeat "s"%char k
        ++ list_ascii_of_string "://" ++ post.
Proof.
  induction l as [|c l IH].
  - split; [discriminate|]. intros ([|? ?] & k & post & E); discriminate.
  - cbn [Page.exec]. rewrite orb_true_iff, match_at_spec, IH. split.
    + intros [(k & post & E)|(pre & k & post & E)].
      * exists [], k, post. exact E.
      * exists (c :: pre), k, post. now rewrite E.
    + intros ([|a pre] & k & post & E).
      * left. exists k, post. exact E.
      * right. injection E as -> E. exists pre, k, post. exact E.
Qed.

(** X15. The page posts a long URL exactly when it contains, somewhere,
    [http], then any number of [s], then [://]; nothing is asked of what
    stands before or after. *)
Theorem doShort_posts_iff longUrl box :
  Page.doShort longUrl box <> None <->
  exists pre k post,
    list_ascii_of_string longUrl
    = pre ++ list_ascii_of_string "http" ++ repeat "s"%char k
      ++ list_ascii_of_string "://" ++ post.
Proof.
  rewrite <- exec_spec. unfold Page.doShort.
  destruct (Page.exec _); split; congruence.
Qed.

(** X16. On a dedup-index hit the length asked for plays no part: the
    creation returns the key of the index and changes the world in the
    same way for every length. *)
Theorem hit_ignores_length url ttl len len' w :
  ~ unmapped w (md5_key url) ->
  longToShort url ttl len w = longToShort url ttl len' w /\
  fst (longToShort url ttl len w)
  = Redis.reply_string (Redis.get (md5_key url) (db w)) /\
  ticks (snd (longToShort url ttl len w)) = ticks w.
Proof.
  intros Hhit. rewrite !longToShort_hit by assumption. auto.
Qed.

(** X17. The [-ttl] flag counts days: for 1 to 106751991167300 days (the
    most whose seconds fit an [int]) a request without key that misses
    the index stores the decoded long URL under the returned key with
    that many days, in seconds, to live, and the index entry with one
    day. *)
Theorem record_lives_flag_days cfg form w n :
  form_longUrl form <> "" -> form_shortKey form = "" ->
  read_shortUrlLen (form_shortUrlLen form) = inr n ->
  unmapped w (md5_key (fst (Base64.DecodeString (form_longUrl form)))) ->
  1 <= flag_ttl cfg <= 106751991167300 ->
  let r := post_short cfg form w in
  exists key,
    ShortUrl (fst r) = short_url cfg key /\
    Redis.get key (db (snd r))
    = Some (fst (Base64.DecodeString (form_longUrl form))) /\
    Redis.ttl key (db (snd r)) = flag_ttl cfg * secondsPerDay /\
    Redis.ttl (md5_key (fst (Base64.DecodeString (form_longUrl form))))
      (db (snd r)) = secondsPerDay.
Proof.
  intros Hurl Hkey Hlen Hmiss Hdays r.
  pose proof (read_shortUrlLen_range _ _ Hlen) as Hn.
  unfold minShortUrlLen in Hn.
  subst r. rewrite (post_short_generated cfg form w n) by assumption.
  cbv zeta. cbn [fst snd ShortUrl]. eexists. split; [reflexivity|].
  assert (Hsec : GoInt.mul (flag_ttl cfg) secondsPerDay
                 = flag_ttl cfg * secondsPerDay).
  { unfold GoInt.mul. apply wrap_small.
    unfold GoInt.min_int, GoInt.max_int, secondsPerDay. lia. }
  destruct (miss_records _
              (GoInt.mul (flag_ttl cfg) secondsPerDay) (Z.to_nat n) w Hmiss
              ltac:(lia)) as (Hidx & Hrec & _).
  rewrite Hsec in *.
  assert (Hpos : 0 < flag_ttl cfg * secondsPerDay)
    by (unfold secondsPerDay; lia).
  unfold Redis.get, Redis.ttl. rewrite Hidx, (Hrec Hpos). cbn.
  rewrite Z2Pos.id by assumption. auto.
Qed.

End PageFacts.

(** ** The further properties on concrete requests *)

Lemma btoa_decode_roundtrip_witness :
  Page.btoa "http://x" = "aHR0cDovL3g=" /\
  Base64.DecodeString "aHR0cDovL3g=" = ("http://x", None).
Proof.
  split; [reflexivity|]. exact (proj1 (btoa_decode_roundtrip "http://x")).
Defined.

Lemma generated_key_well_formed_witness :
  unmapped fresh (md5_key "http://x") /\ (1 <= 6 <= 20)%nat /\
  String.length (fst issued) = 6%nat /\
  spec_well_formed_key (fst issued) = true.
Proof.
  assert (Hmiss : unmapped fresh (md5_key "http://x")) by reflexivity.
  split; [exact Hmiss|]. split; [lia|].
  exact (generated_key_well_formed "http://x" 864000 6 fresh Hmiss ltac:(lia)).
Defined.

Lemma post_short_answers_witness :
  Code (fst (post_short sample_config form_x fresh)) = 1 /\
  Message (fst (post_short sample_config form_x fresh)) = "" /\
  LongUrl (fst (post_short sample_config form_x fresh)) = "http://x".
Proof.
  destruct (post_short_answers sample_config form_x fresh) as (_ & _ & Hok).
  assert (Hcode : Code (fst (post_short sample_config form_x fresh)) = 1)
    by (vm_compute; reflexivity).
  destruct (Hok Hcode) as (Hmsg & Hurl & _).
  split; [exact Hcode|]. split; [exact Hmsg | exact Hurl].
Defined.

Lemma longToShort_frame_witness :
  fst issued <> fst (@longToShort lcg_rand "http://y" 864000 6 (snd issued)) /\
  fst issued <> md5_key "http://y" /\
  db (snd (@longToShort lcg_rand "http://y" 864000 6 (snd issued))) !! fst issued
  = db (snd issued) !! fst issued.
Proof.
  assert (H1 : fst issued
               <> fst (@longToShort lcg_rand "http://y" 864000 6 (snd issued)))
    by (vm_compute; discriminate).
  assert (H2 : fst issued <> md5_key "http://y") by (vm_compute; discriminate).
  split; [exact H1|]. split; [exact H2|].
  exact (proj1 (longToShort_frame "http://y" 864000 6 (snd issued) (fst issued)
                  H1 H2)).
Defined.

Lemma miss_writes_both_records_witness :
  unmapped fresh (md5_key "http://x") /\
  Redis.ttl (md5_key "http://x") (db (snd brief)) = 86400 /\
  Redis.ttl (fst brief) (db (snd brief)) = 10 /\
  fst (get_short (fst (@longToShort lcg_rand "http://x" 0 6 fresh))
         (snd (@longToShort lcg_rand "http://x" 0 6 fresh))) = NotFound.
Proof.
  assert (Hmiss : unmapped fresh (md5_key "http://x")) by reflexivity.
  split; [exact Hmiss|].
  destruct (miss_writes_both_records "http://x" 10 6 fresh Hmiss ltac:(lia))
    as (Hidx & Hrec & _).
  destruct (miss_writes_both_records "http://x" 0 6 fresh Hmiss ltac:(lia))
    as (_ & _ & Hdead).
  split; [|split].
  - unfold Redis.ttl. fold brief in Hidx. rewrite Hidx. reflexivity.
  - unfold Redis.ttl. fold brief in Hrec. rewrite (Hrec ltac:(lia)). reflexivity.
  - exact (proj2 (Hdead ltac:(lia))).
Defined.

Lemma resolve_missing_or_expired_witness :
  get_short "never" fresh = (NotFound, fresh) /\
  get_short (fst brief) lapsed = (NotFound, lapsed).
Proof.
  split.
  - exact (proj2 (proj1 (resolve_missing_or_expired "never" fresh) eq_refl)).
  - apply (proj2 (resolve_missing_or_expired (fst brief) (snd brief))
             (Redis.Entry "http://x" (Some 10%positive)) 10%positive 11);
      [vm_compute; reflexivity | reflexivity | lia].
Defined.

Lemma resolve_keeps_values_witness :
  fst (shortToLong (fst issued) (snd (shortToLong (fst issued) (snd issued))))
  = fst (shortToLong (fst issued) (snd issued)) /\
  Redis.ttl (fst issued) (db (snd issued))
  <= Redis.ttl (fst issued) (db (snd (shortToLong (fst issued) (snd issued)))).
Proof.
  assert (Hrec : db (snd issued) !! fst issued
                 = Some (Redis.Entry "http://x" (Some 864000%positive)))
    by (vm_compute; reflexivity).
  refine (proj2 (resolve_keeps_values (fst issued) (snd issued) _)).
  intros e t He Ht. rewrite Hrec in He. injection He as <-.
  injection Ht as <-. vm_compute. discriminate.
Defined.

Lemma renewal_window_reopens_witness :
  Redis.ttl (fst brief)
    (db (wait 86400 (snd (shortToLong (fst brief) (snd brief))))) = 10 /\
  Redis.ttl (fst brief)
    (db (snd (shortToLong (fst brief)
                (wait 86400 (snd (shortToLong (fst brief) (snd brief)))))))
  = 86410.
Proof.
  destruct (renewal_window_reopens (fst brief) (snd brief)
              (Redis.Entry "http://x" (Some 10%positive)) 10%positive 86400
              ltac:(vm_compute; reflexivity) ltac:(discriminate)
              ltac:(vm_compute; reflexivity) eq_refl
              ltac:(vm_compute; discriminate)
              ltac:(unfold secondsPerDay; lia))
    as (_ & H2 & H3 & _).
  split; [exact H2 | exact H3].
Defined.

Lemma explicit_create_idempotent_then_guarded_witness :
  post_short sample_config (form_x_as "abc")
    (snd (post_short sample_config (form_x_as "abc") fresh))
  = post_short sample_config (form_x_as "abc") fresh /\
  post_short sample_config (mkForm "aHR0cDovL3k=" "abc" "")
    (snd (post_short sample_config (form_x_as "abc") fresh))
  = (mkResponse 0 msg_key_exists "http://y" "",
     snd (post_short sample_config (form_x_as "abc") fresh)).
Proof.
  destruct (explicit_create_idempotent_then_guarded sample_config
              (form_x_as "abc") fresh 6 ltac:(discriminate) eq_refl
              ltac:(discriminate) ltac:(discriminate)
              ltac:(vm_compute; reflexivity)) as (Hsame & Hother).
  split; [exact Hsame|].
  exact (Hother (mkForm "aHR0cDovL3k=" "abc" "") 6 ltac:(discriminate) eq_refl
           eq_refl ltac:(discriminate)).
Defined.

Lemma index_lapse_duplicates_witness :
  unmapped (wait 86400 (snd issued)) (md5_key "http://x") /\
  Redis.get (fst issued)
    (db (snd (@longToShort lcg_rand "http://x" 864000 6 (wait 86400 (snd issued)))))
  = Some "http://x" /\
  Redis.get
    (fst (@longToShort lcg_rand "http://x" 864000 6 (wait 86400 (snd issued))))
    (db (snd (@longToShort lcg_rand "http://x" 864000 6 (wait 86400 (snd issued)))))
  = Some "http://x" /\
  fst (@longToShort lcg_rand "http://x" 864000 6 (wait 86400 (snd issued)))
  <> fst issued.
Proof.
  destruct (index_lapse_duplicates "http://x" 864000 864000 6 6 86400 fresh
              eq_refl ltac:(lia) ltac:(lia)
              ltac:(unfold secondsPerDay; lia) ltac:(lia))
    as (Hlapsed & _ & Hold & Hnew & _).
  split; [exact Hlapsed|]. split; [exact Hold|]. split; [exact Hnew|].
  vm_compute. discriminate.
Defined.

Lemma namespaces_apart_witness :
  fst (@generate lcg_rand 6 fresh) <> md5_key "http://x" /\
  fst (@generate lcg_rand 6 fresh) <> defaultLockPrefix +:+ "abc" /\
  md5_key "http://x" <> defaultLockPrefix +:+ "abc".
Proof.
  destruct (namespaces_apart 6 fresh "http://x" "abc" "abd")
    as (H1 & H2 & H3 & _).
  split; [exact H1|]. split; [exact H2 | exact H3].
Defined.

Lemma requested_length_honoured_witness :
  exists key,
    ShortUrl (fst (post_short sample_config (mkForm "aHR0cDovL3g=" "" "12") fresh))
    = short_url sample_config key /\
    Z.of_nat (String.length key) = 12.
Proof.
  destruct (requested_length_honoured sample_config
              (mkForm "aHR0cDovL3g=" "" "12") fresh 12
              ltac:(discriminate) eq_refl eq_refl eq_refl)
    as (key & Hurl & Hlen & _).
  exists key. split; [exact Hurl | exact Hlen].
Defined.

Lemma page_request_served_witness :
  Page.doShort "http://x" "" = Some form_x /\
  LongUrl (fst (post_short sample_config form_x fresh)) = "http://x" /\
  Code (fst (post_short sample_config form_x fresh)) = 1.
Proof.
  assert (Hdo : Page.doShort "http://x" "" = Some form_x) by reflexivity.
  split; [exact Hdo|].
  destruct (page_request_served sample_config "http://x" "" form_x fresh Hdo)
    as (_ & _ & Hurl & _ & Hok).
  split; [exact Hurl | exact (Hok eq_refl)].
Defined.

Lemma page_resubmission_same_answer_witness :
  0 < GoInt.mul (flag_ttl sample_config) secondsPerDay /\
  exists form2,
    Page.doShort "http://x"
      (Page.received "" (fst (post_short sample_config form_x (snd issued))))
    = Some form2 /\
    fst (post_short sample_config form2
           (snd (post_short sample_config form_x (snd issued))))
    = fst (post_short sample_config form_x (snd issued)).
Proof.
  assert (Httl : 0 < GoInt.mul (flag_ttl sample_config) secondsPerDay)
    by reflexivity.
  split; [exact Httl|].
  destruct (page_resubmission_same_answer sample_config "http://x" "" form_x
              (snd issued) Httl eq_refl eq_refl) as (_ & form2 & Hdo & _ & Hsame).
  exists form2. split; [exact Hdo | exact Hsame].
Defined.

Lemma doShort_posts_iff_witness :
  Page.doShort "see https://x" "" <> None /\
  Page.doShort "example.com" "" = None.
Proof.
  split; [|reflexivity].
  apply doShort_posts_iff.
  exists (list_ascii_of_string "see "), 1%nat, (list_ascii_of_string "x").
  reflexivity.
Defined.

Lemma hit_ignores_length_witness :
  ~ unmapped aged (md5_key "http://x") /\
  @longToShort lcg_rand "http://x" 864000 12 aged
  = @longToShort lcg_rand "http://x" 864000 6 aged /\
  fst (@longToShort lcg_rand "http://x" 864000 12 aged) = fst issued.
Proof.
  assert (Hlive : ~ unmapped aged (md5_key "http://x"))
    by (vm_compute; discriminate).
  split; [exact Hlive|].
  destruct (hit_ignores_length "http://x" 864000 12 6 aged Hlive)
    as (Hsame & Hkey & _).
  split; [exact Hsame|]. rewrite Hkey. vm_compute. reflexivity.
Defined.

Lemma record_lives_flag_days_witness :
  1 <= flag_ttl sample_config <= 106751991167300 /\
  exists key,
    ShortUrl (fst (post_short sample_config form_x fresh))
    = short_url sample_config key /\
    Redis.ttl key (db (snd (post_short sample_config form_x fresh))) = 15552000.
Proof.
  assert (Hdays : 1 <= flag_ttl sample_config <= 106751991167300)
    by (cbn; lia).
  split; [exact Hdays|].
  destruct (record_lives_flag_days sample_config form_x fresh 6
              ltac:(discriminate) eq_refl eq_refl eq_refl Hdays)
    as (key & Hurl & _ & Httl & _).
  exists key. split; [exact Hurl | exact Httl].
Defined.

Lemma explicit_link_is_permanent_witness :
  Code (fst (post_short sample_config (form_x_as "abc") fresh)) = 1 /\
  fst (get_short "abc"
         (resolve_again "abc" [86400; 31536000; 5]
            (snd (post_short sample_config (form_x_as "abc") fresh))))
  = MovedPermanently "http://x".
Proof.
  assert (Hok : Code (fst (post_short sample_config (form_x_as "abc") fresh)) = 1)
    by (vm_compute; reflexivity).
  split; [exact Hok|].
  exact (proj2 (explicit_link_is_permanent sample_config (form_x_as "abc") fresh
                  6 [86400; 31536000; 5] ltac:(discriminate) eq_refl
                  ltac:(discriminate) ltac:(discriminate) Hok)).
Defined.
